(** * moveitAPI: a shallow embedding of [moveit.py]

    The module is a thin client of the MOVEit REST API: one function that
    authenticates, two that page through listings, one that downloads a file
    and parses it, one that uploads a file.  Every function is a short
    sequence of HTTP calls, dictionary subscripts and file-system actions, so
    the embedding is a state-and-exception monad over a [world] that holds
    the requests sent so far and the local file system.  The remote service is
    the sequence of responses it gives, one per request; a request that gets
    no response at all (a transport failure) is outside this model.  The two
    [while] loops take fuel, one unit per turn, and [OutOfFuel] is the
    outcome of a run that was cut short.

    Python values are the values [json] decoding yields, without floats:
    a JSON number with a fraction or an exponent is outside this model.
    The file system is that of POSIX, where a file can be removed while a
    handle on it is open. *)

From stdpp Require Import base strings pretty list gmap infinite.
From Stdlib Require Import ZArith Ascii Strings.Byte.

Set Warnings "-register-all".
Open Scope Z_scope.

(** ** Python values *)

Inductive pyval : Type :=
| PNone
| PBool (b : bool)
| PInt (z : Z)
| PStr (s : string)
| PList (l : list pyval)
| PDict (d : list (string * pyval)).

(** The exceptions the module can meet.  [Exception] is the built-in base
    class the upload raises itself; [args] is its argument tuple. *)
Inductive exn : Type :=
| KeyError (key : string)
| TypeError
| ValueError
| AttributeError
| UnboundLocalError (name : string)
| JSONDecodeError
| FileNotFoundError (path : string)
| ParserError
| HTTPError (msg : string)
| Exception (args : list pyval).

(** What a call does: it returns, it raises, or the model's fuel for a
    [while] loop ran out before the loop ended. *)
Inductive outcome (A : Type) : Type :=
| Returns (a : A)
| Raises (e : exn)
| OutOfFuel.
Arguments Returns {A} a.
Arguments Raises {A} e.
Arguments OutOfFuel {A}.

(** A dict keeps its items in insertion order; its keys are pairwise
    distinct, so the first binding of a key is its only one. *)
Fixpoint dict_get (d : list (string * pyval)) (k : string) : option pyval :=
  match d with
  | [] => None
  | (k', v) :: d' => if String.eqb k' k then Some v else dict_get d' k
  end.

(** [v[k]] for a string key [k]: a dict looks the key up, a list or a str
    refuses a string index, anything else is not subscriptable. *)
Definition py_getitem (v : pyval) (k : string) : outcome pyval :=
  match v with
  | PDict d => match dict_get d k with
               | Some x => Returns x
               | None => Raises (KeyError k)
               end
  | _ => Raises TypeError
  end.

Definition Z_of_bool (b : bool) : Z := if b then 1 else 0.

(** [a == b].  [bool] is a subclass of [int], so [True == 1]; dicts compare
    without regard to order. *)
Fixpoint py_eq (a b : pyval) {struct a} : bool :=
  match a, b with
  | PNone, PNone => true
  | PBool x, PBool y => Bool.eqb x y
  | PBool x, PInt z => Z_of_bool x =? z
  | PInt z, PBool y => z =? Z_of_bool y
  | PInt x, PInt y => x =? y
  | PStr s, PStr t => String.eqb s t
  | PList l, PList m =>
      (fix go (l m : list pyval) {struct l} : bool :=
         match l, m with
         | [], [] => true
         | x :: l', y :: m' => py_eq x y && go l' m'
         | _, _ => false
         end) l m
  | PDict d, PDict e =>
      (length d =? length e)%nat &&
      (fix go (d : list (string * pyval)) : bool :=
         match d with
         | [] => true
         | (k, v) :: d' =>
             match dict_get e k with
             | Some w => py_eq v w
             | None => false
             end && go d'
         end) d
  | _, _ => false
  end.

(** Truth value of an object, as [if] and [or] test it. *)
Definition py_truthy (v : pyval) : bool :=
  match v with
  | PNone => false
  | PBool b => b
  | PInt z => negb (z =? 0)
  | PStr s => negb (String.eqb s EmptyString)
  | PList l => match l with [] => false | _ => true end
  | PDict d => match d with [] => false | _ => true end
  end.

(** [v + 1]: defined on [int] (and [bool]); [str], [None], [list] and [dict]
    raise [TypeError]. *)
Definition py_add1 (v : pyval) : outcome pyval :=
  match v with
  | PInt z => Returns (PInt (z + 1))
  | PBool b => Returns (PInt (Z_of_bool b + 1))
  | _ => Raises TypeError
  end.

(** The items [list.extend] draws from its argument: the elements of a list,
    the characters of a str, the keys of a dict. *)
Definition py_iter (v : pyval) : outcome (list pyval) :=
  match v with
  | PList l => Returns l
  | PStr s => Returns ((λ c, PStr (String c EmptyString)) <$> String.list_ascii_of_string s)
  | PDict d => Returns ((λ kv, PStr kv.1) <$> d)
  | _ => Raises TypeError
  end.

(** ** What the module takes from its libraries

    Three things the module calls are not its own code and are parameters of
    the embedding: how Python reads an integer from a str and shows a
    container, how [tempfile] names a new file, and the [pandas] readers. *)

Class Python := {
  (** [int(s)] for a str [s]; [None] is [ValueError]. *)
  int_of_str : string → option Z;
  (** [repr(v)] for a list or a dict. *)
  repr : pyval → string
}.

Class TempFile := {
  (** The name [NamedTemporaryFile] gives its file, among the names taken. *)
  mkstemp : gset string → string;
  mkstemp_fresh : ∀ taken, mkstemp taken ∉ taken
}.

Class Pandas := {
  dataset : Type;
  (** [pd.read_csv(path, sep=sep)] on the bytes of the file. *)
  read_csv : string → list byte → option dataset;
  (** [pd.read_excel(path, sheet_name=sheet)] on the bytes of the file. *)
  read_excel : pyval → list byte → option dataset
}.

Section Builtins.
Context {py : Python}.

(** [int(v)] *)
Definition py_int (v : pyval) : outcome Z :=
  match v with
  | PInt z => Returns z
  | PBool b => Returns (Z_of_bool b)
  | PStr s => match int_of_str s with
              | Some z => Returns z
              | None => Raises ValueError
              end
  | _ => Raises TypeError
  end.

(** [str(v)], which is how an f-string shows a value. *)
Definition py_str (v : pyval) : string :=
  match v with
  | PNone => "None"
  | PBool true => "True"
  | PBool false => "False"
  | PInt z => pretty z
  | PStr s => s
  | _ => repr v
  end.
End Builtins.

(** ** HTTP, the file system and the monad *)

Inductive method : Type := GET | POST.

(** What a request carries besides its headers: nothing, the [data=]
    argument, or one file of a multipart form ([files={field: (filename,
    handle, content type)}]). *)
Inductive payload : Type :=
| NoBody
| FormData (data : pyval)
| MultipartFile (field filename : string) (bytes : list byte) (ctype : string).

Record request : Type := Request {
  meth : method;
  url : string;
  headers : gmap string string;
  stream : bool;
  body : payload
}.

(** A response: [json] is what [response.json()] decodes the body to, [None]
    when the body is not JSON; [content] is [response.content]. *)
Record response : Type := Response {
  status_code : Z;
  reason : string;
  resp_url : string;
  json : option pyval;
  content : list byte
}.

(** The remote service, as this client sees it: its answer to the first
    request, to the second, and so on. *)
Definition server : Type := nat → response.

Record world : Type := World {
  sent : list request;
  fs : gmap string (list byte)
}.

Definition M (A : Type) : Type := world → outcome A * world.

Definition ret {A} (a : A) : M A := λ w, (Returns a, w).
Definition raise {A} (e : exn) : M A := λ w, (Raises e, w).
Definition diverge {A} : M A := λ w, (OutOfFuel, w).
Definition lift {A} (o : outcome A) : M A := λ w, (o, w).

Definition bind {A B} (m : M A) (k : A → M B) : M B :=
  λ w, match m w with
       | (Returns a, w') => k a w'
       | (Raises e, w') => (Raises e, w')
       | (OutOfFuel, w') => (OutOfFuel, w')
       end.

Notation "'let*' x ':=' m 'in' k" := (bind m (λ x, k))
  (at level 10, x name, m at level 100, k at level 200).

(** [requests.get] and [requests.post]: the request goes on the wire and the
    service's next answer comes back. *)
Definition send (srv : server) (r : request) : M response :=
  λ w, (Returns (srv (length (sent w))), World (sent w ++ [r]) (fs w)).

Definition requests_get (srv : server) (u : string) (h : gmap string string)
    (strm : bool) : M response :=
  send srv (Request GET u h strm NoBody).

Definition requests_post (srv : server) (u : string) (h : gmap string string)
    (b : payload) : M response :=
  send srv (Request POST u h false b).

(** [response.json()] *)
Definition response_json (r : response) : outcome pyval :=
  match json r with
  | Some v => Returns v
  | None => Raises JSONDecodeError
  end.

(** [response.raise_for_status()] of [requests]: a status from 400 to 599
    raises [HTTPError] with the library's message, any other status passes. *)
Definition raise_for_status (r : response) : outcome unit :=
  let c := status_code r in
  if (400 <=? c) && (c <? 500) then
    Raises (HTTPError (pretty c +:+ " Client Error: " +:+ reason r
                       +:+ " for url: " +:+ resp_url r))
  else if (500 <=? c) && (c <? 600) then
    Raises (HTTPError (pretty c +:+ " Server Error: " +:+ reason r
                       +:+ " for url: " +:+ resp_url r))
  else Returns ().

(** [tempfile.NamedTemporaryFile(delete=False)]: a new, empty file under a
    name not in use; the result stands for [tmp.name]. *)
Definition NamedTemporaryFile `{TempFile} : M string :=
  λ w, let name := mkstemp (dom (fs w)) in
       (Returns name, World (sent w) (<[name := []]> (fs w))).

(** [with open(path, 'wb') as f: f.write(bytes)] *)
Definition write_file (path : string) (bytes : list byte) : M unit :=
  λ w, (Returns (), World (sent w) (<[path := bytes]> (fs w))).

(** The bytes of a file, for [open(path, 'rb')] and for the readers. *)
Definition read_file (path : string) : M (list byte) :=
  λ w, match fs w !! path with
       | Some b => (Returns b, w)
       | None => (Raises (FileNotFoundError path), w)
       end.

(** [os.remove(path)] *)
Definition os_remove (path : string) : M unit :=
  λ w, match fs w !! path with
       | Some _ => (Returns (), World (sent w) (delete path (fs w)))
       | None => (Raises (FileNotFoundError path), w)
       end.

(** [os.path.getsize(path)] *)
Definition os_path_getsize (path : string) : M Z :=
  let* b := read_file path in ret (Z.of_nat (length b)).

(** [os.path.basename(path)] on POSIX: what follows the last slash. *)
Fixpoint os_path_basename (path : string) : string :=
  match path with
  | EmptyString => EmptyString
  | String c rest =>
      if existsb (Ascii.eqb "/"%char) (String.list_ascii_of_string rest)
      then os_path_basename rest
      else if Ascii.eqb c "/"%char then rest else path
  end.

(** ** The module *)

Section MoveIt.
Context {py : Python} {tf : TempFile} {pd : Pandas}.

(** [auth_move_it(base_url, payload)] *)
Definition auth_move_it (srv : server) (base_url : string) (payload : pyval)
    : M pyval :=
  let url := "https://moveit." +:+ base_url +:+ "/api/v1/token" in
  let* response :=
    requests_post srv url {["Content-Type" := "application/json"]}
      (FormData payload) in
  match raise_for_status response with
  | Raises (HTTPError e) => ret (PStr ("Error: " +:+ e))
  | Raises e => raise e
  | OutOfFuel => diverge
  | Returns _ =>
      let* tokens := lift (response_json response) in
      ret tokens
  end.

(** The [if]/[elif] chain of the download: the reader picked by [file_type],
    and no binding of [data] when no test holds. *)
Definition read_by_file_type (tmp : string) (file_type sheet_download : pyval)
    : M (option dataset) :=
  if py_eq file_type (PStr "csv") then
    let* b := read_file tmp in
    match read_csv "," b with
    | Some data => ret (Some data)
    | None => raise ParserError
    end
  else if py_eq file_type (PStr "txt") then
    let* b := read_file tmp in
    match read_csv (String "009" EmptyString) b with
    | Some data => ret (Some data)
    | None => raise ParserError
    end
  else if py_eq file_type (PStr "excel") then
    let* b := read_file tmp in
    match read_excel sheet_download b with
    | Some data => ret (Some data)
    | None => raise ParserError
    end
  else ret None.

(** [read_move_it_file(base_url, tokens, file_id, file_type, sheet_download)].
    [c_type] is computed and never used, as in the source. *)
Definition read_move_it_file (srv : server) (base_url : string)
    (tokens file_id file_type sheet_download : pyval) : M dataset :=
  let* tmp := NamedTemporaryFile in
  let* token := lift (py_getitem tokens "access_token") in
  let url := "https://moveit." +:+ base_url +:+ "/api/v1/files/"
             +:+ py_str file_id +:+ "/download" in
  let c_type :=
    if py_eq file_type (PStr "excel")
    then "application/vnd.openxmlformats-officedocument.spreadsheetml.sheet"
    else "text/csv" in
  let headers : gmap string string :=
    {["Authorization" := "Bearer " +:+ py_str token]} in
  let* response := requests_get srv url headers true in
  let* _ := write_file tmp (content response) in
  let* data := read_by_file_type tmp file_type sheet_download in
  let* _ := os_remove tmp in
  match data with
  | Some d => ret d
  | None => raise (UnboundLocalError "data")
  end.

(** [v['paging'][k]] *)
Definition paging (v : pyval) (k : string) : outcome pyval :=
  match py_getitem v "paging" with
  | Returns p => py_getitem p k
  | Raises e => Raises e
  | OutOfFuel => OutOfFuel
  end.

(** [items.extend(page['items'])]: the method is looked up on [items] first,
    then the argument is evaluated, then it is iterated.  The list is
    extended in place; [items] is the only name it is reached by from here
    on, so the new list is threaded through. *)
Definition extend_items (items page : pyval) : outcome pyval :=
  match items with
  | PList l =>
      match py_getitem page "items" with
      | Returns x =>
          match py_iter x with
          | Returns xs => Returns (PList (l ++ xs))
          | Raises e => Raises e
          | OutOfFuel => OutOfFuel
          end
      | Raises e => Raises e
      | OutOfFuel => OutOfFuel
      end
  | _ => Raises AttributeError
  end.

(** The [while] loop of [available_files], entered at its test. *)
Fixpoint available_files_loop (fuel : nat) (srv : server) (url token : string)
    (items : pyval) (page total_pages : Z) : M pyval :=
  if negb (page =? total_pages) then
    match fuel with
    | O => diverge
    | S fuel' =>
        let next_page := page + 1 in
        let url_page := url +:+ "?page=" +:+ pretty next_page in
        let* response :=
          requests_get srv url_page {["Authorization" := token]} false in
        let* files := lift (response_json response) in
        let* items := lift (extend_items items files) in
        let* p := lift (paging files "page") in
        let* page := lift (py_int p) in
        let* t := lift (paging files "totalPages") in
        let* total_pages := lift (py_int t) in
        available_files_loop fuel' srv url token items page total_pages
    end
  else ret items.

(** [available_files(base_url, tokens)] *)
Definition available_files (fuel : nat) (srv : server) (base_url : string)
    (tokens : pyval) : M pyval :=
  let* tok := lift (py_getitem tokens "access_token") in
  let token := "Bearer " +:+ py_str tok in
  let url := "https://moveit." +:+ base_url +:+ "/api/v1/files" in
  let* response := requests_get srv url {["Authorization" := token]} false in
  let* files := lift (response_json response) in
  let* items := lift (py_getitem files "items") in
  let* p := lift (paging files "page") in
  let* page := lift (py_int p) in
  let* t := lift (paging files "totalPages") in
  let* total_pages := lift (py_int t) in
  available_files_loop fuel srv url token items page total_pages.

(** The [while] loop of [available_folders]: inside the loop [page] and
    [total_pages] are taken from the response as they are. *)
Fixpoint available_folders_loop (fuel : nat) (srv : server)
    (url token : string) (items page total_pages : pyval) : M pyval :=
  if negb (py_eq page total_pages) then
    match fuel with
    | O => diverge
    | S fuel' =>
        let* next_page := lift (py_add1 page) in
        let url_page := url +:+ "?page=" +:+ py_str next_page in
        let* response :=
          requests_get srv url_page {["Authorization" := token]} false in
        let* folders := lift (response_json response) in
        let* items := lift (extend_items items folders) in
        let* page := lift (paging folders "page") in
        let* total_pages := lift (paging folders "totalPages") in
        available_folders_loop fuel' srv url token items page total_pages
    end
  else ret items.

(** [available_folders(base_url, tokens)] *)
Definition available_folders (fuel : nat) (srv : server) (base_url : string)
    (tokens : pyval) : M pyval :=
  let* tok := lift (py_getitem tokens "access_token") in
  let token := "Bearer " +:+ py_str tok in
  let url := "https://moveit." +:+ base_url +:+ "/api/v1/folders" in
  let* response := requests_get srv url {["Authorization" := token]} false in
  let* folders := lift (response_json response) in
  let* items := lift (py_getitem folders "items") in
  let* p := lift (paging folders "page") in
  let* page := lift (py_int p) in
  let* t := lift (paging folders "totalPages") in
  let* total_pages := lift (py_int t) in
  available_folders_loop fuel srv url token items (PInt page) (PInt total_pages).

(** [upload_move_it_file(base_url, tokens, folder_id, file_path, file_type,
    chunked)].  [requests] is importable, or the module itself would not
    load, so the guarded import does nothing. *)
Definition upload_move_it_file (srv : server) (base_url : string)
    (tokens folder_id : pyval) (file_path file_type : string) (chunked : pyval)
    : M unit :=
  let chunked := match chunked with PNone => PBool false | _ => chunked end in
  let* tok := lift (py_getitem tokens "access_token") in
  let token := "Bearer " +:+ py_str tok in
  let url := "https://moveit." +:+ base_url +:+ "/api/v1/folders/"
             +:+ py_str folder_id +:+ "/files" in
  let* size := os_path_getsize file_path in
  let headers : gmap string string :=
    <["Content-Type" := "multipart/form-data"]>
      (<["accept" := "application/json"]> {["Authorization" := token]}) in
  let headers :=
    if (40000000 <=? size) || py_truthy chunked
    then <["Transfer-Encoding" := "chunked"]> headers
    else headers in
  let* f := read_file file_path in
  let* response :=
    requests_post srv url headers
      (MultipartFile "file" (os_path_basename file_path) f file_type) in
  if negb ((status_code response =? 201) || (status_code response =? 200))
  then raise (Exception [PInt (status_code response)])
  else ret ().

End MoveIt.

(** ** Instances to run the model with

    The theorems below hold for every [Python], [TempFile] and [Pandas].
    The instances here let the model be evaluated on concrete calls. *)

Definition is_space (c : ascii) : bool :=
  let n := N_of_ascii c in
  (((9 <=? n) && (n <=? 13)) || ((28 <=? n) && (n <=? 32)))%N.

Definition digit_of (c : ascii) : option Z :=
  let n := Z.of_N (N_of_ascii c) in
  if (48 <=? n) && (n <=? 57) then Some (n - 48) else None.

(** Decimal digits, single underscores allowed between two digits. *)
Fixpoint digits_value (acc : Z) (after_digit : bool) (s : list ascii)
    : option Z :=
  match s with
  | [] => if after_digit then Some acc else None
  | c :: s' =>
      if Ascii.eqb c "_"%char then
        if after_digit then digits_value acc false s' else None
      else
        match digit_of c with
        | Some d => digits_value (10 * acc + d) true s'
        | None => None
        end
  end.

Fixpoint drop_spaces (s : list ascii) : list ascii :=
  match s with
  | c :: s' => if is_space c then drop_spaces s' else s
  | [] => []
  end.

(** [int(s)] in base ten: blanks around, an optional sign, the digits.
    CPython's cap on the number of digits is left out. *)
Definition parse_int (s : string) : option Z :=
  let t := rev (drop_spaces (rev (drop_spaces (String.list_ascii_of_string s)))) in
  match t with
  | c :: t' =>
      if Ascii.eqb c "-"%char then Z.opp <$> digits_value 0 false t'
      else if Ascii.eqb c "+"%char then digits_value 0 false t'
      else digits_value 0 false t
  | [] => None
  end.

Definition hex_digit (n : N) : ascii :=
  ascii_of_N (if (n <? 10)%N then 48 + n else 87 + n)%N.

(** [repr] of a str of ASCII text. *)
Definition repr_str (s : string) : string :=
  let cs := String.list_ascii_of_string s in
  let q := if existsb (Ascii.eqb "'"%char) cs
              && negb (existsb (Ascii.eqb "034"%char) cs)
           then "034"%char else "'"%char in
  let esc (c : ascii) : list ascii :=
    let n := N_of_ascii c in
    if Ascii.eqb c q || Ascii.eqb c "\"%char then ["\"%char; c]
    else if (n =? 9)%N then ["\"%char; "t"%char]
    else if (n =? 10)%N then ["\"%char; "n"%char]
    else if (n =? 13)%N then ["\"%char; "r"%char]
    else if (n <? 32)%N || (n =? 127)%N
      then ["\"%char; "x"%char; hex_digit (n / 16); hex_digit (n mod 16)]
    else [c] in
  String.string_of_list_ascii ([q] ++ concat (esc <$> cs) ++ [q]).

Definition join (sep : string) (l : list string) : string :=
  match l with
  | [] => EmptyString
  | x :: l' => x +:+ String.concat EmptyString ((λ y, sep +:+ y) <$> l')
  end.

Fixpoint show_value (v : pyval) : string :=
  match v with
  | PNone => "None"
  | PBool true => "True"
  | PBool false => "False"
  | PInt z => pretty z
  | PStr s => repr_str s
  | PList l =>
      "[" +:+ join ", " ((fix go (l : list pyval) : list string :=
                            match l with
                            | [] => []
                            | x :: l' => show_value x :: go l'
                            end) l) +:+ "]"
  | PDict d =>
      "{" +:+ join ", " ((fix go (d : list (string * pyval)) : list string :=
                            match d with
                            | [] => []
                            | (k, x) :: d' =>
                                (repr_str k +:+ ": " +:+ show_value x) :: go d'
                            end) d) +:+ "}"
  end.

#[global] Instance cpython : Python :=
  {| int_of_str := parse_int; repr := show_value |}.

(** Temporary files take the first name of stdpp's enumeration of strings
    that is free. *)
#[global] Instance first_free : TempFile :=
  {| mkstemp := fresh; mkstemp_fresh := is_fresh |}.

(** A reader of delimited text that knows lines and fields and nothing else,
    and no reader of workbooks.  Like [pandas] it refuses an empty file. *)
Fixpoint split_on (sep : ascii) (cur : list ascii) (s : list ascii)
    : list string :=
  match s with
  | [] => [String.string_of_list_ascii (rev cur)]
  | c :: s' =>
      if Ascii.eqb c sep
      then String.string_of_list_ascii (rev cur) :: split_on sep [] s'
      else split_on sep (c :: cur) s'
  end.

Definition read_table (sep : string) (b : list byte) : option (list (list string)) :=
  match b, sep with
  | [], _ => None
  | _, String c EmptyString =>
      let text := ascii_of_byte <$> b in
      let lines := filter (λ l, l ≠ EmptyString) (split_on "010"%char [] text) in
      Some ((λ l, split_on c [] (String.list_ascii_of_string l)) <$> lines)
  | _, _ => None
  end.

#[global] Instance tables : Pandas :=
  {| dataset := list (list string);
     read_csv := read_table;
     read_excel := λ _ _, None |}.

(** * Vocabulary of the properties *)

(** A response that is a page envelope: it decodes, its [items] is the list
    [its], and its paging fields are the integers [p] and [t]. *)
Definition is_page (r : response) (its : list pyval) (p t : Z) : Prop :=
  ∃ v, json r = Some v
       ∧ py_getitem v "items" = Returns (PList its)
       ∧ paging v "page" = Returns (PInt p)
       ∧ paging v "totalPages" = Returns (PInt t).

(** A request that carries [Authorization: Bearer T]. *)
Definition has_bearer (T : string) (r : request) : Prop :=
  headers r !! "Authorization" = Some ("Bearer " +:+ T).

(** The requests a call added to the wire. *)
Definition issued (w w' : world) (rs : list request) : Prop :=
  sent w' = sent w ++ rs.

(** A response whose paging fields are integers. *)
Definition int_paging (r : response) : Prop :=
  ∃ v p t, json r = Some v
           ∧ paging v "page" = Returns (PInt p)
           ∧ paging v "totalPages" = Returns (PInt t).

(** The requests of the listers, and the world after a request. *)
Definition page_request (u token : string) : request :=
  Request GET u {["Authorization" := token]} false NoBody.

Definition after (w : world) (r : request) : world :=
  World (sent w ++ [r]) (fs w).

(** ** One turn of the pagination loops

    What one response does to the loop variables, as a function: the first
    response of a listing, and a later one in each of the two loops. *)

Section Turns.
Context {py : Python}.

Definition and_then {A B} (o : outcome A) (k : A → outcome B) : outcome B :=
  match o with
  | Returns a => k a
  | Raises e => Raises e
  | OutOfFuel => OutOfFuel
  end.

Definition first_page (r : response) : outcome (pyval * Z * Z) :=
  and_then (response_json r) (λ files,
  and_then (py_getitem files "items") (λ items,
  and_then (paging files "page") (λ p,
  and_then (py_int p) (λ page,
  and_then (paging files "totalPages") (λ t,
  and_then (py_int t) (λ total_pages,
  Returns (items, page, total_pages))))))).

Definition next_file_page (items : pyval) (r : response)
    : outcome (pyval * Z * Z) :=
  and_then (response_json r) (λ files,
  and_then (extend_items items files) (λ items,
  and_then (paging files "page") (λ p,
  and_then (py_int p) (λ page,
  and_then (paging files "totalPages") (λ t,
  and_then (py_int t) (λ total_pages,
  Returns (items, page, total_pages))))))).

Definition next_folder_page (items : pyval) (r : response)
    : outcome (pyval * pyval * pyval) :=
  and_then (response_json r) (λ folders,
  and_then (extend_items items folders) (λ items,
  and_then (paging folders "page") (λ page,
  and_then (paging folders "totalPages") (λ total_pages,
  Returns (items, page, total_pages))))).

End Turns.

(** ** Services and worlds to run the model on *)

(** A page envelope as the service sends it. *)
Definition envelope (items : list pyval) (page total_pages : pyval)
    : response :=
  Response 200 "OK" "https://moveit.example.org/api/v1/files"
    (Some (PDict [("items", PList items);
                  ("paging", PDict [("page", page);
                                    ("totalPages", total_pages)])]))
    [].

(** Three pages of two items each. *)
Definition three_pages : server := λ k,
  match k with
  | O => envelope [PStr "A"; PStr "B"] (PInt 1) (PInt 3)
  | 1%nat => envelope [PStr "C"; PStr "D"] (PInt 2) (PInt 3)
  | _ => envelope [PStr "E"; PStr "F"] (PInt 3) (PInt 3)
  end.

(** A service that is stuck: every answer is page 1 of 2, with no items. *)
Definition stuck : server := λ _, envelope [] (PInt 1) (PInt 2).

(** A service that tells the pages after the first as strs. *)
Definition str_paged : server := λ k,
  match k with
  | O => envelope [] (PInt 1) (PInt 3)
  | 1%nat => envelope [] (PStr "2") (PStr "3")
  | _ => envelope [] (PStr "3") (PStr "3")
  end.

(** A service that gives one answer to everything. *)
Definition always (r : response) : server := λ _, r.

Definition unauthorized : response :=
  Response 401 "Unauthorized" "https://moveit.example.org/api/v1/token"
    None [].

Definition not_modified : response :=
  Response 304 "Not Modified" "https://moveit.example.org/api/v1/token"
    None [].

Definition not_modified_json : response :=
  Response 304 "Not Modified" "https://moveit.example.org/api/v1/token"
    (Some (PDict [])) [].

Definition not_found : response :=
  Response 404 "Not Found"
    "https://moveit.example.org/api/v1/folders/12/files" None [].

(** The body [a,b], [1,2], one line each. *)
Definition csv_body : list byte :=
  [x61; x2c; x62; x0a; x31; x2c; x32; x0a].

(** What the reader of [tables] makes of it. *)
Definition csv_table : @dataset tables := [["a"; "b"]; ["1"; "2"]].

Definition csv_file : response :=
  Response 200 "OK" "https://moveit.example.org/api/v1/files/7/download"
    None csv_body.

Definition credentials : pyval :=
  PDict [("grant_type", PStr "password"); ("username", PStr "u");
         ("password", PStr "p")].

Definition tokens_T : pyval :=
  PDict [("access_token", PStr "T"); ("token_type", PStr "bearer")].

Definition tokens_without : list (string * pyval) :=
  [("token_type", PStr "bearer")].

(** Nothing sent yet, no local file; and one local file to upload. *)
Definition nothing : world := World [] ∅.

Definition with_report : world :=
  World [] {["/data/report.csv" := csv_body]}.

(** A response that the file lister reads as a page envelope: the paging
    fields are whatever [int] turns into [p] and [t]. *)
Definition reads_as_page {py : Python} (r : response) (its : list pyval)
    (p t : Z) : Prop :=
  ∃ v x y, json r = Some v
           ∧ py_getitem v "items" = Returns (PList its)
           ∧ paging v "page" = Returns x ∧ py_int x = Returns p
           ∧ paging v "totalPages" = Returns y ∧ py_int y = Returns t.

(** A service none of whose answers is a last page. *)
Definition never_last (srv : server) : Prop :=
  ∀ k, ∃ its p t, is_page (srv k) its p t ∧ p ≠ t.

(** The requests of a listing of [n] pages: the bare URL, then pages 2 to
    [n]. *)
Definition page_requests (u token : string) (n : nat) : list request :=
  page_request u token
  :: ((λ k : nat, page_request (u +:+ "?page=" +:+ pretty (Z.of_nat k + 2))
                    token) <$> seq 0 (n - 1)).

(** A service that goes back and forth between pages 1 and 2 of 3. *)
Definition oscillating : server := λ k,
  envelope [PStr "A"] (PInt (if Nat.even k then 1 else 2)) (PInt 3).

(** Three pages told in strs throughout. *)
Definition str_pages : server := λ k,
  match k with
  | O => envelope [PStr "A"; PStr "B"] (PStr "1") (PStr "3")
  | 1%nat => envelope [PStr "C"; PStr "D"] (PStr "2") (PStr "3")
  | _ => envelope [PStr "E"; PStr "F"] (PStr "3") (PStr "3")
  end.

(** A download with nothing in it, a success with a body that is not JSON,
    and a page without [items]. *)
Definition empty_file : response :=
  Response 200 "OK" "https://moveit.example.org/api/v1/files/7/download"
    None [].

Definition ok_html : response :=
  Response 200 "OK" "https://moveit.example.org/api/v1/token" None
    [x3c; x68; x31; x3e].

Definition no_items : response :=
  Response 200 "OK" "https://moveit.example.org/api/v1/files"
    (Some (PDict [("paging", PDict [("page", PInt 1);
                                    ("totalPages", PInt 1)])]))
    [].

(** * Properties *)

Ltac run := repeat progress (unfold bind, lift, ret, raise, diverge,
  requests_get, requests_post, send, write_file, os_remove, read_file,
  os_path_getsize, NamedTemporaryFile; simpl).

Section Properties.
Context {py : Python} {tf : TempFile} {pd : Pandas}.

(** ** Authentication *)

Lemma raise_for_status_pass (r : response) :
  ¬ 400 ≤ status_code r < 600 → raise_for_status r = Returns ().
Proof.
  intros Hc. unfold raise_for_status.
  destruct (Z.leb_spec 400 (status_code r)),
    (Z.ltb_spec (status_code r) 500),
    (Z.leb_spec 500 (status_code r)),
    (Z.ltb_spec (status_code r) 600); simpl; try reflexivity; lia.
Qed.

(** C2, as the code has it: a status from 400 to 599 gives back a str that
    starts with [Error: ] and carries the status, the reason and the URL, and
    nothing is raised; any other status, every 2xx among them, gives back the
    decoded body as it is when the body is JSON. *)
Theorem auth_move_it_result (srv : server) (base_url : string)
    (payload : pyval) (w : world) :
  let r := srv (length (sent w)) in
  (400 ≤ status_code r < 600 →
     ∃ kind, (kind = " Client Error: " ∨ kind = " Server Error: ")
       ∧ (auth_move_it srv base_url payload w).1
         = Returns (PStr ("Error: " +:+ pretty (status_code r) +:+ kind
                          +:+ reason r +:+ " for url: " +:+ resp_url r)))
  ∧ (¬ 400 ≤ status_code r < 600 →
     ∀ tokens, json r = Some tokens →
       (auth_move_it srv base_url payload w).1 = Returns tokens).
Proof.
  intros r. split.
  - intros Hc. unfold auth_move_it, raise_for_status. run. fold r.
    destruct (Z.leb_spec 400 (status_code r)); [|lia].
    destruct (Z.ltb_spec (status_code r) 500); simpl; [eauto|].
    destruct (Z.leb_spec 500 (status_code r)); [|lia].
    destruct (Z.ltb_spec (status_code r) 600); simpl; [eauto|lia].
  - intros Hc tokens Hj. unfold auth_move_it. run. fold r.
    rewrite (raise_for_status_pass r Hc). run.
    unfold response_json. by rewrite Hj.
Qed.

(** ** A token mapping without [access_token] *)

(** C10: with a token mapping that has no [access_token], each of the four
    operations ends in [KeyError('access_token')] and has put no request on
    the wire. *)
Theorem missing_access_token (fuel : nat) (srv : server) (base_url : string)
    (d : list (string * pyval)) (file_id file_type sheet folder_id chunked : pyval)
    (file_path mime : string) (w : world) :
  dict_get d "access_token" = None →
  let failed {A} (r : outcome A * world) :=
    r.1 = Raises (KeyError "access_token") ∧ sent r.2 = sent w in
  failed (read_move_it_file srv base_url (PDict d) file_id file_type sheet w)
  ∧ failed (available_files fuel srv base_url (PDict d) w)
  ∧ failed (available_folders fuel srv base_url (PDict d) w)
  ∧ failed (upload_move_it_file srv base_url (PDict d) folder_id file_path
              mime chunked w).
Proof.
  intros Hd failed. subst failed.
  unfold read_move_it_file, available_files, available_folders,
    upload_move_it_file. run. rewrite Hd. simpl. done.
Qed.

(** ** Upload *)

(** What the upload sends when the token and the local file are there. *)
Lemma upload_sends (srv : server) (base_url : string)
    (tokens tok folder_id chunked : pyval) (file_path mime : string)
    (b : list byte) (w : world) :
  py_getitem tokens "access_token" = Returns tok →
  fs w !! file_path = Some b →
  ∃ r, sent (upload_move_it_file srv base_url tokens folder_id file_path
               mime chunked w).2 = sent w ++ [r]
     ∧ meth r = POST
     ∧ headers r !! "Authorization" = Some ("Bearer " +:+ py_str tok)
     ∧ headers r !! "Transfer-Encoding" =
         (if (40000000 <=? Z.of_nat (length b)) || py_truthy chunked
          then Some "chunked" else None)
     ∧ body r = MultipartFile "file" (os_path_basename file_path) b mime.
Proof.
  intros Htok Hb. unfold upload_move_it_file. run. rewrite Htok. simpl.
  rewrite Hb. simpl. rewrite Hb. simpl.
  assert (Hn : py_truthy match chunked with
                         | PNone => PBool false
                         | _ => chunked
                         end = py_truthy chunked) by by destruct chunked.
  rewrite Hn.
  destruct (negb _); simpl;
    (eexists; split; [reflexivity|]; simpl; split; [done|]);
    destruct (_ || _); by simplify_map_eq.
Qed.

(** C4: a local file of 40,000,000 bytes or more, or a true [chunked] flag,
    puts [Transfer-Encoding: chunked] among the headers of the upload
    request; so a file of 50,000,000 bytes has it whatever the flag is. *)
Theorem upload_chunked_header (srv : server) (base_url : string)
    (tokens tok folder_id chunked : pyval) (file_path mime : string)
    (b : list byte) (w : world) :
  py_getitem tokens "access_token" = Returns tok →
  fs w !! file_path = Some b →
  40000000 ≤ Z.of_nat (length b) ∨ py_truthy chunked = true →
  ∃ r, sent (upload_move_it_file srv base_url tokens folder_id file_path
               mime chunked w).2 = sent w ++ [r]
     ∧ headers r !! "Transfer-Encoding" = Some "chunked".
Proof.
  intros Htok Hb Hbig.
  destruct (upload_sends srv base_url tokens tok folder_id chunked file_path
              mime b w Htok Hb) as (r & Hs & _ & _ & Ht & _).
  exists r. split; [done|]. rewrite Ht.
  destruct Hbig as [Hsz | Hch].
  - apply Z.leb_le in Hsz. by rewrite Hsz.
  - rewrite Hch. by rewrite orb_true_r.
Qed.

(** The spec's 50,000,000 bytes: the header is there whatever [chunked] is. *)
Lemma upload_50_million_bytes (srv : server) (base_url : string)
    (tokens tok folder_id chunked : pyval) (file_path mime : string)
    (b : list byte) (w : world) :
  py_getitem tokens "access_token" = Returns tok →
  fs w !! file_path = Some b →
  Z.of_nat (length b) = 50000000 →
  ∃ r, sent (upload_move_it_file srv base_url tokens folder_id file_path
               mime chunked w).2 = sent w ++ [r]
     ∧ headers r !! "Transfer-Encoding" = Some "chunked".
Proof.
  intros Htok Hb Hsz.
  destruct (upload_sends srv base_url tokens tok folder_id chunked file_path
              mime b w Htok Hb) as (r & Hs & _ & _ & Ht & _).
  exists r. split; [done|]. by rewrite Ht, Hsz.
Qed.

(** C5: status 200 or 201 makes the upload return, with nothing to return;
    any other status makes it raise [Exception] with the status code as its
    one argument. *)
Theorem upload_status (srv : server) (base_url : string)
    (tokens tok folder_id chunked : pyval) (file_path mime : string)
    (b : list byte) (w : world) :
  py_getitem tokens "access_token" = Returns tok →
  fs w !! file_path = Some b →
  let code := status_code (srv (length (sent w))) in
  (upload_move_it_file srv base_url tokens folder_id file_path mime chunked
     w).1
  = if decide (code = 200 ∨ code = 201) then Returns ()
    else Raises (Exception [PInt code]).
Proof.
  intros Htok Hb code. unfold upload_move_it_file. run. rewrite Htok. simpl.
  rewrite Hb. simpl. rewrite Hb. simpl. fold code.
  destruct (Z.eqb_spec code 201), (Z.eqb_spec code 200); simpl;
    case_decide; try done; lia.
Qed.

(** ** Download *)

(** The readers only read: the chain leaves the world as it found it. *)
Lemma read_by_file_type_world (tmp : string) (file_type sheet : pyval)
    (w : world) :
  (read_by_file_type tmp file_type sheet w).2 = w.
Proof.
  unfold read_by_file_type.
  repeat case_match; run; repeat case_match; simplify_eq/=; done.
Qed.

(** With no test of the chain true, no reader runs and [data] stays unbound. *)
Lemma read_by_file_type_other (tmp : string) (file_type sheet : pyval)
    (w : world) :
  py_eq file_type (PStr "csv") = false →
  py_eq file_type (PStr "txt") = false →
  py_eq file_type (PStr "excel") = false →
  read_by_file_type tmp file_type sheet w = (Returns None, w).
Proof. intros Hc Ht He. unfold read_by_file_type. by rewrite Hc, Ht, He. Qed.

(** The download, step by step, once the token is there: one [GET] that
    carries the bearer token, the body written to the transient file, the
    chain of readers, and the removal that only a chain without exception
    reaches. *)
Lemma read_move_it_file_steps (srv : server) (base_url : string)
    (tokens tok file_id file_type sheet : pyval) (w : world) :
  py_getitem tokens "access_token" = Returns tok →
  let tmp := mkstemp (dom (fs w)) in
  let req := Request GET ("https://moveit." +:+ base_url +:+ "/api/v1/files/"
                          +:+ py_str file_id +:+ "/download")
               {["Authorization" := "Bearer " +:+ py_str tok]} true NoBody in
  let w1 := World (sent w ++ [req])
              (<[tmp := content (srv (length (sent w)))]> (fs w)) in
  read_move_it_file srv base_url tokens file_id file_type sheet w =
  match (read_by_file_type tmp file_type sheet w1).1 with
  | Returns (Some d) => (Returns d, World (sent w ++ [req]) (fs w))
  | Returns None =>
      (Raises (UnboundLocalError "data"), World (sent w ++ [req]) (fs w))
  | Raises e => (Raises e, w1)
  | OutOfFuel => (OutOfFuel, w1)
  end.
Proof.
  intros Htok tmp req w1. unfold read_move_it_file. run. rewrite Htok. simpl.
  fold tmp. rewrite insert_insert_eq. fold req. fold w1.
  pose proof (read_by_file_type_world tmp file_type sheet w1) as Hw.
  destruct (read_by_file_type tmp file_type sheet w1) as [o w2].
  simpl in Hw. subst w2. simpl.
  destruct o as [[d|]| |]; try done; simpl;
    rewrite lookup_insert_eq; simpl;
    rewrite delete_insert_id; try done;
    apply not_elem_of_dom, mkstemp_fresh.
Qed.

(** C9: when the download returns a dataset, the transient file is gone: its
    name is not in the file system, which is again what it was before the
    call. *)
Theorem read_move_it_file_removes_tmp (srv : server) (base_url : string)
    (tokens file_id file_type sheet : pyval) (w w' : world) (d : dataset) :
  read_move_it_file srv base_url tokens file_id file_type sheet w
    = (Returns d, w') →
  (mkstemp (dom (fs w)) ∉ dom (fs w')) ∧ fs w' = fs w.
Proof.
  intros Hrun.
  destruct (py_getitem tokens "access_token") as [tok| |] eqn:Htok.
  - rewrite (read_move_it_file_steps srv base_url tokens tok) in Hrun by done.
    repeat case_match; simplify_eq/=.
    split; [apply mkstemp_fresh | done].
  - unfold read_move_it_file in Hrun. revert Hrun. run. by rewrite Htok.
  - unfold read_move_it_file in Hrun. revert Hrun. run. by rewrite Htok.
Qed.

(** A reader that raises leaves the transient file behind, with the body of
    the response in it. *)
Lemma read_move_it_file_leaks_tmp (srv : server) (base_url : string)
    (tokens tok file_id sheet : pyval) (w : world) :
  py_getitem tokens "access_token" = Returns tok →
  read_csv "," (content (srv (length (sent w)))) = None →
  let r := read_move_it_file srv base_url tokens file_id (PStr "csv") sheet w in
  r.1 = Raises ParserError
  ∧ fs r.2 !! (mkstemp (dom (fs w))) = Some (content (srv (length (sent w)))).
Proof.
  intros Htok Hbad r. subst r.
  rewrite (read_move_it_file_steps srv base_url tokens tok) by done.
  unfold read_by_file_type. run. rewrite lookup_insert_eq. simpl.
  rewrite Hbad. simpl. by rewrite lookup_insert_eq.
Qed.

(** C6, what the code does where the claim has a silent fall-through: with a
    [file_type] that is none of [csv], [txt] and [excel] no reader runs and
    no dataset is made, the file is fetched, the transient file written and
    removed, and the call does not return: [data] was never bound, so
    [return data] ends in [UnboundLocalError]. *)
Theorem read_move_it_file_other_type (srv : server) (base_url : string)
    (tokens tok file_id file_type sheet : pyval) (w : world) :
  py_getitem tokens "access_token" = Returns tok →
  py_eq file_type (PStr "csv") = false →
  py_eq file_type (PStr "txt") = false →
  py_eq file_type (PStr "excel") = false →
  let r := read_move_it_file srv base_url tokens file_id file_type sheet w in
  r.1 = Raises (UnboundLocalError "data")
  ∧ (∀ d, r.1 ≠ Returns d)
  ∧ length (sent r.2) = S (length (sent w))
  ∧ fs r.2 = fs w.
Proof.
  intros Htok Hc Ht He r. subst r.
  rewrite (read_move_it_file_steps srv base_url tokens tok) by done.
  rewrite read_by_file_type_other by done. simpl.
  repeat split; [done|]. rewrite length_app. simpl. lia.
Qed.

(** ** The loops, one turn at a time

    The equations the loops obey: a loop whose test fails returns its items,
    a loop out of fuel stops, and otherwise a turn sends the request for the
    next page and goes on from what the response made of the variables. *)

Section Loops.
Variables (srv : server) (url token : string).

Lemma available_files_loop_done (fuel : nat) (items : pyval) (page : Z)
    (w : world) :
  available_files_loop fuel srv url token items page page w
  = (Returns items, w).
Proof. destruct fuel; simpl; by rewrite Z.eqb_refl. Qed.

Lemma available_files_loop_0 (items : pyval) (page total_pages : Z)
    (w : world) :
  page ≠ total_pages →
  available_files_loop 0 srv url token items page total_pages w
  = (OutOfFuel, w).
Proof. intros Hne. simpl. by destruct (Z.eqb_spec page total_pages). Qed.

Lemma available_files_loop_step (fuel : nat) (items : pyval)
    (page total_pages : Z) (w : world) :
  page ≠ total_pages →
  let w1 := after w (page_request (url +:+ "?page=" +:+ pretty (page + 1))
                       token) in
  available_files_loop (S fuel) srv url token items page total_pages w
  = match next_file_page items (srv (length (sent w))) with
    | Returns (items', page', total_pages') =>
        available_files_loop fuel srv url token items' page' total_pages' w1
    | Raises e => (Raises e, w1)
    | OutOfFuel => (OutOfFuel, w1)
    end.
Proof.
  intros Hne w1. simpl. destruct (Z.eqb_spec page total_pages); [done|].
  simpl. run. unfold next_file_page, and_then.
  repeat case_match; simplify_eq/=; done.
Qed.

Lemma available_folders_loop_done (fuel : nat) (items page total_pages : pyval)
    (w : world) :
  py_eq page total_pages = true →
  available_folders_loop fuel srv url token items page total_pages w
  = (Returns items, w).
Proof. intros He. destruct fuel; simpl; by rewrite He. Qed.

Lemma available_folders_loop_0 (items page total_pages : pyval) (w : world) :
  py_eq page total_pages = false →
  available_folders_loop 0 srv url token items page total_pages w
  = (OutOfFuel, w).
Proof. intros Hne. simpl. by rewrite Hne. Qed.

Lemma available_folders_loop_step (fuel : nat)
    (items page total_pages : pyval) (w : world) :
  py_eq page total_pages = false →
  available_folders_loop (S fuel) srv url token items page total_pages w
  = match py_add1 page with
    | Returns next_page =>
        let w1 := after w (page_request
                             (url +:+ "?page=" +:+ py_str next_page) token) in
        match next_folder_page items (srv (length (sent w))) with
        | Returns (items', page', total_pages') =>
            available_folders_loop fuel srv url token items' page'
              total_pages' w1
        | Raises e => (Raises e, w1)
        | OutOfFuel => (OutOfFuel, w1)
        end
    | Raises e => (Raises e, w)
    | OutOfFuel => (OutOfFuel, w)
    end.
Proof.
  intros Hne. simpl. rewrite Hne. simpl. run.
  unfold next_folder_page, and_then.
  repeat case_match; simplify_eq/=; done.
Qed.

End Loops.

(** The listers up to their loops. *)
Lemma available_files_start (fuel : nat) (srv : server) (base_url : string)
    (tokens tok : pyval) (w : world) :
  py_getitem tokens "access_token" = Returns tok →
  let token := "Bearer " +:+ py_str tok in
  let url := "https://moveit." +:+ base_url +:+ "/api/v1/files" in
  let w1 := after w (page_request url token) in
  available_files fuel srv base_url tokens w
  = match first_page (srv (length (sent w))) with
    | Returns (items, page, total_pages) =>
        available_files_loop fuel srv url token items page total_pages w1
    | Raises e => (Raises e, w1)
    | OutOfFuel => (OutOfFuel, w1)
    end.
Proof.
  intros Htok token url w1. unfold available_files. run. rewrite Htok. simpl.
  unfold first_page, and_then. repeat case_match; simplify_eq/=; done.
Qed.

Lemma available_folders_start (fuel : nat) (srv : server) (base_url : string)
    (tokens tok : pyval) (w : world) :
  py_getitem tokens "access_token" = Returns tok →
  let token := "Bearer " +:+ py_str tok in
  let url := "https://moveit." +:+ base_url +:+ "/api/v1/folders" in
  let w1 := after w (page_request url token) in
  available_folders fuel srv base_url tokens w
  = match first_page (srv (length (sent w))) with
    | Returns (items, page, total_pages) =>
        available_folders_loop fuel srv url token items (PInt page)
          (PInt total_pages) w1
    | Raises e => (Raises e, w1)
    | OutOfFuel => (OutOfFuel, w1)
    end.
Proof.
  intros Htok token url w1. unfold available_folders. run. rewrite Htok. simpl.
  unfold first_page, and_then. repeat case_match; simplify_eq/=; done.
Qed.

(** ** The bearer token on the wire *)

Lemma issued_nil (w : world) : issued w w [].
Proof. unfold issued. by rewrite app_nil_r. Qed.

Lemma issued_after (w w' : world) (r : request) (rs : list request) :
  issued (after w r) w' rs → issued w w' (r :: rs).
Proof. unfold issued, after. simpl. intros ->. by rewrite <- app_assoc. Qed.

Lemma page_request_authorized (u token : string) :
  headers (page_request u token) !! "Authorization" = Some token.
Proof. unfold page_request. simpl. by simplify_map_eq. Qed.

Section Wire.
Variables (srv : server) (url token : string).

Let authorized (r : request) : Prop :=
  headers r !! "Authorization" = Some token.

Lemma available_files_loop_sent (fuel : nat) :
  ∀ (items : pyval) (page total_pages : Z) (w : world),
  ∃ rs, issued w (available_files_loop fuel srv url token items page
                    total_pages w).2 rs
        ∧ Forall authorized rs.
Proof.
  induction fuel as [|fuel IH]; intros items page total_pages w;
    destruct (decide (page = total_pages)) as [->|Hne];
    rewrite ?available_files_loop_done, ?available_files_loop_0 by done;
    try (exists []; split; [apply issued_nil | constructor]).
  rewrite available_files_loop_step by done.
  destruct (next_file_page _ _) as [[[i p] t]|e|]; simpl.
  - destruct (IH i p t (after w (page_request
        (url +:+ "?page=" +:+ pretty (page + 1)) token))) as (rs & Hrs & Hall).
    eexists (_ :: rs). split; [by apply issued_after|].
    constructor; [apply page_request_authorized | done].
  - eexists [_]. split; [apply issued_after, issued_nil|].
    constructor; [apply page_request_authorized | constructor].
  - eexists [_]. split; [apply issued_after, issued_nil|].
    constructor; [apply page_request_authorized | constructor].
Qed.

Lemma available_folders_loop_sent (fuel : nat) :
  ∀ (items page total_pages : pyval) (w : world),
  ∃ rs, issued w (available_folders_loop fuel srv url token items page
                    total_pages w).2 rs
        ∧ Forall authorized rs.
Proof.
  induction fuel as [|fuel IH]; intros items page total_pages w;
    destruct (py_eq page total_pages) eqn:Hne;
    rewrite ?available_folders_loop_done, ?available_folders_loop_0 by done;
    try (exists []; split; [apply issued_nil | constructor]).
  rewrite available_folders_loop_step by done.
  destruct (py_add1 page) as [next_page|e|]; simpl;
    try (exists []; split; [apply issued_nil | constructor]).
  destruct (next_folder_page _ _) as [[[i p] t]|e|]; simpl.
  - destruct (IH i p t (after w (page_request
        (url +:+ "?page=" +:+ py_str next_page) token))) as (rs & Hrs & Hall).
    eexists (_ :: rs). split; [by apply issued_after|].
    constructor; [apply page_request_authorized | done].
  - eexists [_]. split; [apply issued_after, issued_nil|].
    constructor; [apply page_request_authorized | constructor].
  - eexists [_]. split; [apply issued_after, issued_nil|].
    constructor; [apply page_request_authorized | constructor].
Qed.

End Wire.

(** C7: with [access_token] bound to the str [T], every request that the
    listers, the download and the upload put on the wire, the request of
    every turn of a pagination loop among them, carries
    [Authorization: Bearer T].  The listers and the download do send. *)
Theorem requests_carry_bearer (fuel : nat) (srv : server) (base_url : string)
    (tokens file_id file_type sheet folder_id chunked : pyval) (T : string)
    (file_path mime : string) (w : world) :
  py_getitem tokens "access_token" = Returns (PStr T) →
  let carried {A} (r : outcome A * world) (n : nat) :=
    ∃ rs, issued w r.2 rs ∧ Forall (has_bearer T) rs ∧ (n ≤ length rs)%nat in
  carried (available_files fuel srv base_url tokens w) 1%nat
  ∧ carried (available_folders fuel srv base_url tokens w) 1%nat
  ∧ carried (read_move_it_file srv base_url tokens file_id file_type sheet w)
      1%nat
  ∧ carried (upload_move_it_file srv base_url tokens folder_id file_path mime
               chunked w) 0%nat.
Proof.
  intros Htok carried. subst carried. simpl.
  split; [|split; [|split]].
  - rewrite (available_files_start fuel srv base_url tokens (PStr T)) by done.
    simpl. destruct (first_page _) as [[[i p] t]|e|]; simpl.
    + edestruct available_files_loop_sent as (rs & Hrs & Hall).
      eexists (_ :: rs). split; [apply issued_after, Hrs|].
      split; [|simpl; lia]. constructor; [apply page_request_authorized|done].
    + eexists [_]. split; [apply issued_after, issued_nil|].
      split; [|simpl; lia].
      constructor; [apply page_request_authorized | constructor].
    + eexists [_]. split; [apply issued_after, issued_nil|].
      split; [|simpl; lia].
      constructor; [apply page_request_authorized | constructor].
  - rewrite (available_folders_start fuel srv base_url tokens (PStr T)) by done.
    simpl. destruct (first_page _) as [[[i p] t]|e|]; simpl.
    + edestruct available_folders_loop_sent as (rs & Hrs & Hall).
      eexists (_ :: rs). split; [apply issued_after, Hrs|].
      split; [|simpl; lia]. constructor; [apply page_request_authorized|done].
    + eexists [_]. split; [apply issued_after, issued_nil|].
      split; [|simpl; lia].
      constructor; [apply page_request_authorized | constructor].
    + eexists [_]. split; [apply issued_after, issued_nil|].
      split; [|simpl; lia].
      constructor; [apply page_request_authorized | constructor].
  - rewrite (read_move_it_file_steps srv base_url tokens (PStr T)) by done.
    eexists [_]. split; [|split; [|simpl; lia]].
    + unfold issued. repeat case_match; reflexivity.
    + constructor; [|constructor]. unfold has_bearer. simpl.
      by simplify_map_eq.
  - destruct (fs w !! file_path) as [b|] eqn:Hb.
    + destruct (upload_sends srv base_url tokens (PStr T) folder_id chunked
                  file_path mime b w Htok Hb) as (r & Hs & _ & Ha & _).
      exists [r]. split; [done|]. split; [|simpl; lia].
      constructor; [done | constructor].
    + exists []. unfold upload_move_it_file. run. rewrite Htok. simpl.
      rewrite Hb. simpl.
      split; [apply issued_nil|]. split; [constructor|lia].
Qed.

(** ** Pagination *)

Lemma response_json_some (r : response) (v : pyval) :
  json r = Some v → response_json r = Returns v.
Proof. intros Hj. unfold response_json. by rewrite Hj. Qed.

Lemma first_page_is_page (r : response) (its : list pyval) (p t : Z) :
  is_page r its p t → first_page r = Returns (PList its, p, t).
Proof.
  intros (v & Hj & Hi & Hp & Ht). unfold first_page.
  rewrite (response_json_some r v Hj). cbn [and_then].
  rewrite Hi. cbn [and_then]. rewrite Hp. cbn [and_then py_int].
  by rewrite Ht.
Qed.

Lemma extend_items_is_page (acc its : list pyval) (v : pyval) :
  py_getitem v "items" = Returns (PList its) →
  extend_items (PList acc) v = Returns (PList (acc ++ its)).
Proof. intros Hi. unfold extend_items. by rewrite Hi. Qed.

Lemma next_file_page_is_page (r : response) (acc its : list pyval) (p t : Z) :
  is_page r its p t →
  next_file_page (PList acc) r = Returns (PList (acc ++ its), p, t).
Proof.
  intros (v & Hj & Hi & Hp & Ht). unfold next_file_page.
  rewrite (response_json_some r v Hj). cbn [and_then].
  rewrite (extend_items_is_page acc its v Hi). cbn [and_then].
  rewrite Hp. cbn [and_then py_int]. by rewrite Ht.
Qed.

Lemma next_folder_page_is_page (r : response) (acc its : list pyval)
    (p t : Z) :
  is_page r its p t →
  next_folder_page (PList acc) r
  = Returns (PList (acc ++ its), PInt p, PInt t).
Proof.
  intros (v & Hj & Hi & Hp & Ht). unfold next_folder_page.
  rewrite (response_json_some r v Hj). cbn [and_then].
  rewrite (extend_items_is_page acc its v Hi). cbn [and_then].
  rewrite Hp. cbn [and_then]. by rewrite Ht.
Qed.

Lemma py_eq_int (p t : Z) : py_eq (PInt p) (PInt t) = (p =? t).
Proof. reflexivity. Qed.

Section Pages.
Variables (srv : server) (url token : string).

(** The loops over the pages that are still to come: [rest] are the items of
    pages [p + 1] to [n], which the service gives in that order. *)
Lemma available_files_loop_pages (rest : list (list pyval)) :
  ∀ (fuel : nat) (acc : list pyval) (p n : Z) (w : world),
  (∀ j its, rest !! j = Some its →
     is_page (srv (length (sent w) + j)%nat) its (p + 1 + Z.of_nat j) n) →
  p + Z.of_nat (length rest) = n →
  (length rest ≤ fuel)%nat →
  (available_files_loop fuel srv url token (PList acc) p n w).1
  = Returns (PList (acc ++ concat rest)).
Proof.
  induction rest as [|its rest IH]; intros fuel acc p n w Hsrv Hn Hfuel.
  - simpl in *. replace n with p by lia.
    by rewrite available_files_loop_done, app_nil_r.
  - simpl in Hn, Hfuel. destruct fuel as [|fuel]; [lia|].
    rewrite available_files_loop_step by lia.
    pose proof (Hsrv 0%nat its eq_refl) as H0.
    rewrite Nat.add_0_r, Z.add_0_r in H0.
    rewrite (next_file_page_is_page _ acc its _ _ H0). simpl.
    rewrite app_assoc. apply IH; [|lia|lia].
    intros j its' Hj. unfold after. simpl. rewrite length_app. simpl.
    replace (length (sent w) + 1 + j)%nat with (length (sent w) + S j)%nat
      by lia.
    replace (p + 1 + 1 + Z.of_nat j) with (p + 1 + Z.of_nat (S j)) by lia.
    by apply Hsrv.
Qed.

Lemma available_folders_loop_pages (rest : list (list pyval)) :
  ∀ (fuel : nat) (acc : list pyval) (p n : Z) (w : world),
  (∀ j its, rest !! j = Some its →
     is_page (srv (length (sent w) + j)%nat) its (p + 1 + Z.of_nat j) n) →
  p + Z.of_nat (length rest) = n →
  (length rest ≤ fuel)%nat →
  (available_folders_loop fuel srv url token (PList acc) (PInt p) (PInt n)
     w).1
  = Returns (PList (acc ++ concat rest)).
Proof.
  induction rest as [|its rest IH]; intros fuel acc p n w Hsrv Hn Hfuel.
  - simpl in *. replace n with p by lia.
    rewrite available_folders_loop_done, app_nil_r; [done|].
    rewrite py_eq_int. apply Z.eqb_refl.
  - simpl in Hn, Hfuel. destruct fuel as [|fuel]; [lia|].
    rewrite available_folders_loop_step
      by (rewrite py_eq_int; apply Z.eqb_neq; lia).
    pose proof (Hsrv 0%nat its eq_refl) as H0.
    rewrite Nat.add_0_r, Z.add_0_r in H0. simpl.
    rewrite (next_folder_page_is_page _ acc its _ _ H0). simpl.
    rewrite app_assoc. apply IH; [|lia|lia].
    intros j its' Hj. unfold after. simpl. rewrite length_app. simpl.
    replace (length (sent w) + 1 + j)%nat with (length (sent w) + S j)%nat
      by lia.
    replace (p + 1 + 1 + Z.of_nat j) with (p + 1 + Z.of_nat (S j)) by lia.
    by apply Hsrv.
Qed.

End Pages.

(** C1: when the service gives pages 1 to [n] of [n] in order, with the items
    [pages], each lister returns the items of all the pages, concatenated in
    page order, as soon as the fuel allows the [n - 1] turns of the loop.  A
    single page (page 1 of 1) is the case [n = 1]: its items come back as
    they are. *)
Theorem listers_concatenate_pages (fuel : nat) (srv : server)
    (base_url : string) (tokens tok : pyval) (pages : list (list pyval))
    (w : world) :
  py_getitem tokens "access_token" = Returns tok →
  pages ≠ [] →
  (∀ k its, pages !! k = Some its →
     is_page (srv (length (sent w) + k)%nat) its
       (Z.of_nat k + 1) (Z.of_nat (length pages))) →
  (length pages ≤ S fuel)%nat →
  (available_files fuel srv base_url tokens w).1
    = Returns (PList (concat pages))
  ∧ (available_folders fuel srv base_url tokens w).1
    = Returns (PList (concat pages)).
Proof.
  intros Htok Hne Hsrv Hfuel.
  destruct pages as [|its rest]; [done|]. simpl in Hfuel.
  pose proof (Hsrv 0%nat its eq_refl) as H0.
  rewrite Nat.add_0_r in H0. simpl in H0.
  rewrite (available_files_start fuel srv base_url tokens tok) by done.
  rewrite (available_folders_start fuel srv base_url tokens tok) by done.
  simpl. rewrite (first_page_is_page _ _ _ _ H0).
  assert (Hrest : ∀ r j its',
    rest !! j = Some its' →
    is_page (srv (length (sent (after w r)) + j)%nat) its'
      (1 + 1 + Z.of_nat j) (Z.pos (Pos.of_succ_nat (length rest)))).
  { intros r j its' Hj. unfold after. simpl. rewrite length_app. simpl.
    replace (length (sent w) + 1 + j)%nat with (length (sent w) + S j)%nat
      by lia.
    replace (1 + 1 + Z.of_nat j) with (Z.of_nat (S j) + 1) by lia.
    by apply (Hsrv (S j)). }
  split.
  - apply available_files_loop_pages; [apply Hrest|lia|lia].
  - apply available_folders_loop_pages; [apply Hrest|lia|lia].
Qed.

(** A listing of one page gives back the [items] of that page, whatever
    they are, and the loop is not entered. *)
Lemma listers_single_page (fuel : nat) (srv : server) (base_url : string)
    (tokens tok items : pyval) (p : Z) (w : world) :
  py_getitem tokens "access_token" = Returns tok →
  first_page (srv (length (sent w))) = Returns (items, p, p) →
  (available_files fuel srv base_url tokens w).1 = Returns items
  ∧ (available_folders fuel srv base_url tokens w).1 = Returns items.
Proof.
  intros Htok Hp.
  rewrite (available_files_start fuel srv base_url tokens tok) by done.
  rewrite (available_folders_start fuel srv base_url tokens tok) by done.
  simpl. rewrite Hp.
  rewrite available_files_loop_done, available_folders_loop_done; [done|].
  rewrite py_eq_int. apply Z.eqb_refl.
Qed.

(** ** Termination of the loops *)

Section Fuel.
Variables (srv : server) (url token : string).

(** More fuel does not change a run that ended: an outcome other than
    [OutOfFuel] is the outcome of the loop itself. *)
Lemma available_files_loop_more_fuel (fuel : nat) :
  ∀ (items : pyval) (page total_pages : Z) (w : world),
  (available_files_loop fuel srv url token items page total_pages w).1
    ≠ OutOfFuel →
  available_files_loop (S fuel) srv url token items page total_pages w
  = available_files_loop fuel srv url token items page total_pages w.
Proof.
  induction fuel as [|fuel IH]; intros items page total_pages w Hend;
    destruct (decide (page = total_pages)) as [->|Hne];
    rewrite ?available_files_loop_done in *; try done.
  - by rewrite available_files_loop_0 in Hend.
  - rewrite (available_files_loop_step _ _ _ (S fuel)) by done.
    rewrite (available_files_loop_step _ _ _ fuel) in * by done.
    destruct (next_file_page _ _) as [[[i p] t]|e|]; try done.
    by apply IH.
Qed.

Lemma available_folders_loop_more_fuel (fuel : nat) :
  ∀ (items page total_pages : pyval) (w : world),
  (available_folders_loop fuel srv url token items page total_pages w).1
    ≠ OutOfFuel →
  available_folders_loop (S fuel) srv url token items page total_pages w
  = available_folders_loop fuel srv url token items page total_pages w.
Proof.
  induction fuel as [|fuel IH]; intros items page total_pages w Hend;
    destruct (py_eq page total_pages) eqn:Hne;
    rewrite ?available_folders_loop_done in * by done; try done.
  - by rewrite available_folders_loop_0 in Hend.
  - rewrite (available_folders_loop_step _ _ _ (S fuel)) by done.
    rewrite (available_folders_loop_step _ _ _ fuel) in * by done.
    destruct (py_add1 page) as [next_page|e|]; try done.
    destruct (next_folder_page _ _) as [[[i p] t]|e|]; try done.
    by apply IH.
Qed.

(** Pages that count up by one reach the page that is the last: [d] more
    responses are enough when the [d]-th closes the gap.  Both loops then
    return the same list, whatever URLs they ask. *)
Lemma loops_converge (url' : string) (d : nat) :
  ∀ (its : nat → list pyval) (tot : nat → Z) (acc : list pyval) (p t : Z)
    (w w' : world),
  length (sent w') = length (sent w) →
  (∀ j, (j < d)%nat →
     is_page (srv (length (sent w) + j)%nat) (its j)
       (p + 1 + Z.of_nat j) (tot j)) →
  match d with O => t = p | S d' => tot d' = p + Z.of_nat d end →
  ∃ v, ∀ fuel, (d ≤ fuel)%nat →
    (available_files_loop fuel srv url token (PList acc) p t w).1
      = Returns (PList v)
    ∧ (available_folders_loop fuel srv url' token (PList acc) (PInt p)
         (PInt t) w').1 = Returns (PList v).
Proof.
  induction d as [|d IH]; intros its tot acc p t w w' Hw Hsrv Hlast.
  - subst t. exists acc. intros fuel _.
    rewrite available_files_loop_done, available_folders_loop_done; [done|].
    rewrite py_eq_int. apply Z.eqb_refl.
  - destruct (decide (p = t)) as [->|Hne].
    { exists acc. intros fuel _.
      rewrite available_files_loop_done, available_folders_loop_done;
        [done|]. rewrite py_eq_int. apply Z.eqb_refl. }
    pose proof (Hsrv 0%nat ltac:(lia)) as H0.
    rewrite Nat.add_0_r, Z.add_0_r in H0.
    destruct (IH (its ∘ S) (tot ∘ S) (acc ++ its 0%nat) (p + 1) (tot 0%nat)
                (after w (page_request (url +:+ "?page=" +:+ pretty (p + 1))
                            token))
                (after w' (page_request
                             (url' +:+ "?page=" +:+ py_str (PInt (p + 1)))
                             token))) as [v Hv].
    { unfold after. simpl. rewrite !length_app. simpl. lia. }
    { intros j Hj. unfold after, compose. simpl. rewrite length_app. simpl.
      replace (length (sent w) + 1 + j)%nat with (length (sent w) + S j)%nat
        by lia.
      replace (p + 1 + 1 + Z.of_nat j) with (p + 1 + Z.of_nat (S j)) by lia.
      apply Hsrv. lia. }
    { destruct d as [|d']; unfold compose; lia. }
    exists v. intros [|fuel] Hfuel; [lia|].
    rewrite available_files_loop_step by done.
    rewrite available_folders_loop_step
      by (rewrite py_eq_int; by apply Z.eqb_neq).
    cbn [py_add1]. cbv zeta. rewrite Hw.
    rewrite (next_file_page_is_page _ acc _ _ _ H0).
    rewrite (next_folder_page_is_page _ acc _ _ _ H0).
    apply Hv. lia.
Qed.

End Fuel.

(** Against the stuck service neither loop ends: every turn asks for page 2
    and is told page 1 of 2 again. *)
Lemma available_files_loop_stuck (url token : string) (fuel : nat) :
  ∀ (acc : list pyval) (w : world),
  let r := available_files_loop fuel stuck url token (PList acc) 1 2 w in
  r.1 = OutOfFuel ∧ length (sent r.2) = (length (sent w) + fuel)%nat.
Proof.
  induction fuel as [|fuel IH]; intros acc w r; subst r.
  - rewrite available_files_loop_0 by done. simpl. split; [done|lia].
  - rewrite available_files_loop_step by done.
    change (next_file_page (PList acc) (stuck (length (sent w))))
      with (Returns (PList (acc ++ []), 1, 2)).
    cbv beta iota.
    destruct (IH (acc ++ []) (after w (page_request
        (url +:+ "?page=" +:+ pretty (1 + 1)) token))) as [Ho Hs].
    split; [exact Ho|]. rewrite Hs. unfold after. simpl.
    rewrite length_app. simpl. lia.
Qed.

Lemma available_folders_loop_stuck (url token : string) (fuel : nat) :
  ∀ (acc : list pyval) (w : world),
  let r := available_folders_loop fuel stuck url token (PList acc) (PInt 1)
             (PInt 2) w in
  r.1 = OutOfFuel ∧ length (sent r.2) = (length (sent w) + fuel)%nat.
Proof.
  induction fuel as [|fuel IH]; intros acc w r; subst r.
  - rewrite available_folders_loop_0 by done. simpl. split; [done|lia].
  - rewrite available_folders_loop_step by done.
    change (py_add1 (PInt 1)) with (Returns (PInt (1 + 1))).
    change (next_folder_page (PList acc) (stuck (length (sent w))))
      with (Returns (PList (acc ++ []), PInt 1, PInt 2)).
    cbv beta iota zeta.
    destruct (IH (acc ++ []) (after w (page_request
        (url +:+ "?page=" +:+ py_str (PInt (1 + 1))) token))) as [Ho Hs].
    split; [exact Ho|]. rewrite Hs. unfold after. simpl.
    rewrite length_app. simpl. lia.
Qed.

(** C3: when the pages the service gives count up by one from the first and
    one of them is the last page as that response tells it, both listers
    return, with fuel for as many turns as there are pages after the first;
    and there is a service, one that never moves past page 1 of 2, against
    which no amount of fuel lets either lister return: it keeps sending
    requests. *)
Theorem pagination_termination :
  (∀ (srv : server) (base_url : string) (tokens tok : pyval) (w : world)
     (n : nat) (its : nat → list pyval) (tot : nat → Z) (p0 : Z),
     py_getitem tokens "access_token" = Returns tok →
     (∀ k, (k ≤ n)%nat →
        is_page (srv (length (sent w) + k)%nat) (its k)
          (p0 + Z.of_nat k) (tot k)) →
     tot n = p0 + Z.of_nat n →
     ∃ v, ∀ fuel, (n ≤ fuel)%nat →
       (available_files fuel srv base_url tokens w).1 = Returns (PList v)
       ∧ (available_folders fuel srv base_url tokens w).1
         = Returns (PList v))
  ∧ (∃ srv : server,
     ∀ (fuel : nat) (base_url : string) (tokens tok : pyval) (w : world),
       py_getitem tokens "access_token" = Returns tok →
       let files := available_files fuel srv base_url tokens w in
       let folders := available_folders fuel srv base_url tokens w in
       files.1 = OutOfFuel ∧ folders.1 = OutOfFuel
       ∧ length (sent files.2) = (length (sent w) + S fuel)%nat
       ∧ length (sent folders.2) = (length (sent w) + S fuel)%nat).
Proof.
  split.
  - intros srv base_url tokens tok w n its tot p0 Htok Hsrv Hlast.
    pose proof (Hsrv 0%nat ltac:(lia)) as H0.
    rewrite Nat.add_0_r, Z.add_0_r in H0.
    set (url := "https://moveit." +:+ base_url +:+ "/api/v1/files").
    set (url' := "https://moveit." +:+ base_url +:+ "/api/v1/folders").
    set (token := "Bearer " +:+ py_str tok).
    destruct (loops_converge srv url token url' n (its ∘ S) (tot ∘ S)
                (its 0%nat) p0 (tot 0%nat)
                (after w (page_request url token))
                (after w (page_request url' token))) as [v Hv].
    + unfold after. simpl. by rewrite !length_app.
    + intros j Hj. unfold compose, after. simpl. rewrite length_app. simpl.
      replace (length (sent w) + 1 + j)%nat
        with (length (sent w) + S j)%nat by lia.
      replace (p0 + 1 + Z.of_nat j) with (p0 + Z.of_nat (S j)) by lia.
      apply Hsrv. lia.
    + destruct n as [|n']; unfold compose; simpl in *; lia.
    + exists v. intros fuel Hfuel.
      rewrite (available_files_start fuel srv base_url tokens tok) by done.
      rewrite (available_folders_start fuel srv base_url tokens tok) by done.
      cbv zeta. rewrite (first_page_is_page _ _ _ _ H0).
      by apply Hv.
  - exists stuck. intros fuel base_url tokens tok w Htok files folders.
    subst files folders.
    rewrite (available_files_start fuel stuck base_url tokens tok) by done.
    rewrite (available_folders_start fuel stuck base_url tokens tok) by done.
    cbv zeta.
    change (first_page (stuck (length (sent w))))
      with (Returns (PList [], 1, 2)).
    cbv beta iota.
    edestruct (available_files_loop_stuck) as [Ho Hs].
    edestruct (available_folders_loop_stuck) as [Ho' Hs'].
    rewrite Ho, Ho', Hs, Hs'. unfold after. simpl. rewrite !length_app.
    simpl. repeat split; lia.
Qed.

(** ** The two loops side by side *)

(** On a response with integer paging fields a turn of the folder loop is a
    turn of the file loop: what [int] would have given is there already. *)
Lemma next_folder_page_int (items : pyval) (r : response) :
  int_paging r →
  next_folder_page items r
  = and_then (next_file_page items r)
      (λ '(items', page, total_pages),
         Returns (items', PInt page, PInt total_pages)).
Proof.
  intros (v & p & t & Hj & Hp & Ht). unfold next_folder_page, next_file_page.
  rewrite (response_json_some r v Hj). cbn [and_then].
  destruct (extend_items items v) as [items'|e|]; cbn [and_then]; try done.
  rewrite Hp. cbn [and_then py_int]. by rewrite Ht.
Qed.

Lemma loops_agree (srv : server) (url url' token token' : string)
    (fuel : nat) :
  (∀ k, int_paging (srv k)) →
  ∀ (items : pyval) (page total_pages : Z) (w w' : world),
  length (sent w') = length (sent w) →
  let files :=
    available_files_loop fuel srv url token items page total_pages w in
  let folders :=
    available_folders_loop fuel srv url' token' items (PInt page)
      (PInt total_pages) w' in
  folders.1 = files.1 ∧ length (sent folders.2) = length (sent files.2).
Proof.
  intros Hint.
  induction fuel as [|fuel IH]; intros items page total_pages w w' Hw;
    cbv zeta; destruct (decide (page = total_pages)) as [->|Hne].
  - rewrite available_files_loop_done, available_folders_loop_done; [done|].
    rewrite py_eq_int. apply Z.eqb_refl.
  - rewrite available_files_loop_0, available_folders_loop_0; [done| |done].
    rewrite py_eq_int. by apply Z.eqb_neq.
  - rewrite available_files_loop_done, available_folders_loop_done; [done|].
    rewrite py_eq_int. apply Z.eqb_refl.
  - rewrite available_files_loop_step by done.
    rewrite available_folders_loop_step
      by (rewrite py_eq_int; by apply Z.eqb_neq).
    cbn [py_add1]. cbv zeta. rewrite Hw.
    rewrite (next_folder_page_int items _ (Hint (length (sent w)))).
    destruct (next_file_page _ _) as [[[i p] t]|e|]; cbn [and_then].
    + apply IH. unfold after. simpl. rewrite !length_app. simpl. lia.
    + unfold after. simpl. rewrite !length_app. simpl. split; [done|lia].
    + unfold after. simpl. rewrite !length_app. simpl. split; [done|lia].
Qed.

(** C8: against a service whose responses all carry integer [page] and
    [totalPages], [available_folders] does what [available_files] does: for
    every amount of fuel the same outcome, so the same list of items when
    they return, after the same number of requests. *)
Theorem listers_agree_on_int_paging (fuel : nat) (srv : server)
    (base_url : string) (tokens : pyval) (w : world) :
  (∀ k, int_paging (srv k)) →
  let files := available_files fuel srv base_url tokens w in
  let folders := available_folders fuel srv base_url tokens w in
  folders.1 = files.1 ∧ length (sent folders.2) = length (sent files.2).
Proof.
  intros Hint files folders. subst files folders.
  destruct (py_getitem tokens "access_token") as [tok|e|] eqn:Htok.
  - rewrite (available_files_start fuel srv base_url tokens tok) by done.
    rewrite (available_folders_start fuel srv base_url tokens tok) by done.
    cbv zeta. destruct (first_page _) as [[[i p] t]|e|].
    + apply loops_agree; [done|].
      unfold after. simpl. by rewrite !length_app.
    + unfold after. simpl. by rewrite !length_app.
    + unfold after. simpl. by rewrite !length_app.
  - unfold available_files, available_folders. run. by rewrite Htok.
  - unfold available_files, available_folders. run. by rewrite Htok.
Qed.

End Properties.

(** * Further properties of the module *)

Section Further.
Context {py : Python} {tf : TempFile} {pd : Pandas}.

(** ** Authentication *)

Lemma auth_move_it_error (srv : server) (base_url : string)
    (payload : pyval) (w : world) :
  400 ≤ status_code (srv (length (sent w))) < 600 →
  ∃ e, (auth_move_it srv base_url payload w).1
       = Returns (PStr ("Error: " +:+ e)).
Proof.
  intros Hc. unfold auth_move_it, raise_for_status. run.
  destruct (Z.leb_spec 400 (status_code (srv (length (sent w))))); [|lia].
  destruct (Z.ltb_spec (status_code (srv (length (sent w)))) 500); simpl;
    [eauto|].
  destruct (Z.leb_spec 500 (status_code (srv (length (sent w))))); [|lia].
  destruct (Z.ltb_spec (status_code (srv (length (sent w)))) 600); simpl;
    [eauto|lia].
Qed.

(** X1: the three ways [auth_move_it] can end.  A status from 400 to 599
    gives the error str; any other status gives the decoded body, or raises
    the decoding error when the body is not JSON, a 200 included; the HTTP
    error itself is never raised. *)
Theorem auth_move_it_outcomes (srv : server) (base_url : string)
    (payload : pyval) (w : world) :
  let r := srv (length (sent w)) in
  let o := (auth_move_it srv base_url payload w).1 in
  (400 ≤ status_code r < 600 ∧ ∃ e, o = Returns (PStr ("Error: " +:+ e)))
  ∨ (¬ 400 ≤ status_code r < 600
     ∧ ∃ tokens, json r = Some tokens ∧ o = Returns tokens)
  ∨ (¬ 400 ≤ status_code r < 600
     ∧ json r = None ∧ o = Raises JSONDecodeError).
Proof.
  intros r o. subst o.
  destruct (decide (400 ≤ status_code r < 600)) as [Hc|Hc].
  - left. split; [done|]. by apply auth_move_it_error.
  - right. unfold auth_move_it. run. fold r.
    rewrite (raise_for_status_pass r Hc). run. unfold response_json.
    destruct (json r) as [tokens|]; simpl; [left|right]; eauto.
Qed.

(** X2: whatever the answer, the authentication puts one request on the
    wire, a [POST] of the payload to the token URL with a JSON content type
    and nothing else in its headers, and leaves the file system alone. *)
Theorem auth_move_it_request (srv : server) (base_url : string)
    (payload : pyval) (w : world) :
  (auth_move_it srv base_url payload w).2
  = after w (Request POST ("https://moveit." +:+ base_url +:+ "/api/v1/token")
               {["Content-Type" := "application/json"]} false
               (FormData payload)).
Proof.
  unfold auth_move_it. run.
  destruct (raise_for_status _) as [[]|[]|]; try reflexivity.
  run. by destruct (response_json _).
Qed.

(** X3: the str that a failed authentication returns is no token mapping:
    handed on as [tokens], it makes each of the four operations end in
    [TypeError] at the subscript, with no request sent after that of the
    authentication. *)
Theorem auth_error_as_tokens (fuel : nat) (srv : server) (base_url : string)
    (payload file_id file_type sheet folder_id chunked : pyval)
    (file_path mime : string) (w : world) :
  400 ≤ status_code (srv (length (sent w))) < 600 →
  let a := auth_move_it srv base_url payload w in
  ∃ tokens, a.1 = Returns tokens
    ∧ (let failed {A} (r : outcome A * world) :=
         r.1 = Raises TypeError ∧ sent r.2 = sent a.2 in
       failed (read_move_it_file srv base_url tokens file_id file_type sheet
                 a.2)
       ∧ failed (available_files fuel srv base_url tokens a.2)
       ∧ failed (available_folders fuel srv base_url tokens a.2)
       ∧ failed (upload_move_it_file srv base_url tokens folder_id file_path
                   mime chunked a.2)).
Proof.
  intros Hc a.
  destruct (auth_move_it_error srv base_url payload w Hc) as [e He].
  exists (PStr ("Error: " +:+ e)). split; [exact He|].
  unfold read_move_it_file, available_files, available_folders,
    upload_move_it_file. run. done.
Qed.

(** ** Download *)

(** X4: when the subscript of [tokens] raises, the download has already made
    its transient file: the call ends in that exception with nothing sent
    and a new, empty file left behind. *)
Theorem read_move_it_file_token_failure (srv : server) (base_url : string)
    (tokens file_id file_type sheet : pyval) (w : world) (e : exn) :
  py_getitem tokens "access_token" = Raises e →
  let tmp := mkstemp (dom (fs w)) in
  fs w !! tmp = None
  ∧ read_move_it_file srv base_url tokens file_id file_type sheet w
    = (Raises e, World (sent w) (<[tmp := []]> (fs w))).
Proof.
  intros Htok tmp. split; [apply not_elem_of_dom, mkstemp_fresh|].
  unfold read_move_it_file. run. by rewrite Htok.
Qed.

(** X5: when a reader raises, the transient file is not removed: it stays in
    the file system, holding the body of the response. *)
Theorem read_move_it_file_parser_failure (srv : server) (base_url : string)
    (tokens tok file_id file_type sheet : pyval) (w : world) :
  py_getitem tokens "access_token" = Returns tok →
  let r := read_move_it_file srv base_url tokens file_id file_type sheet w in
  let tmp := mkstemp (dom (fs w)) in
  r.1 = Raises ParserError →
  fs w !! tmp = None
  ∧ fs r.2 = <[tmp := content (srv (length (sent w)))]> (fs w).
Proof.
  intros Htok r tmp. subst r.
  rewrite (read_move_it_file_steps srv base_url tokens tok) by done.
  intros Hr. split; [apply not_elem_of_dom, mkstemp_fresh|].
  revert Hr. by repeat case_match.
Qed.

(** X6: the download sends one request, the same for every [file_type]: a
    streamed [GET] of the download URL whose only header is the bearer
    token.  The content type worked out from [file_type] is not sent. *)
Theorem read_move_it_file_request (srv : server) (base_url : string)
    (tokens tok file_id file_type sheet : pyval) (w : world) :
  py_getitem tokens "access_token" = Returns tok →
  sent (read_move_it_file srv base_url tokens file_id file_type sheet w).2
  = sent w ++ [Request GET ("https://moveit." +:+ base_url
                            +:+ "/api/v1/files/" +:+ py_str file_id
                            +:+ "/download")
                 {["Authorization" := "Bearer " +:+ py_str tok]} true NoBody].
Proof.
  intros Htok.
  rewrite (read_move_it_file_steps srv base_url tokens tok) by done.
  by repeat case_match.
Qed.

(** X7: what the download returns is what the reader for the format makes of
    the body of the response, which goes through the transient file
    unchanged: commas for [csv], tabs for [txt], the chosen sheet for
    [excel]; a reader that fails makes the call raise. *)
Theorem read_move_it_file_reads_body (srv : server) (base_url : string)
    (tokens tok file_id sheet : pyval) (w : world) :
  py_getitem tokens "access_token" = Returns tok →
  let b := content (srv (length (sent w))) in
  let parsed (o : option dataset) : outcome dataset :=
    match o with Some d => Returns d | None => Raises ParserError end in
  (read_move_it_file srv base_url tokens file_id (PStr "csv") sheet w).1
    = parsed (read_csv "," b)
  ∧ (read_move_it_file srv base_url tokens file_id (PStr "txt") sheet w).1
    = parsed (read_csv (String "009" EmptyString) b)
  ∧ (read_move_it_file srv base_url tokens file_id (PStr "excel") sheet w).1
    = parsed (read_excel sheet b).
Proof.
  intros Htok b parsed. subst parsed.
  rewrite !(read_move_it_file_steps srv base_url tokens tok) by done.
  unfold read_by_file_type. run. rewrite lookup_insert_eq. simpl. fold b.
  split; [by destruct (read_csv "," b)|].
  split; [by destruct (read_csv (String "009" EmptyString) b)|].
  by destruct (read_excel sheet b).
Qed.

(** ** Upload *)

(** X8: a local file that is not there stops the upload at
    [os.path.getsize]: [FileNotFoundError], nothing sent, nothing changed. *)
Theorem upload_missing_file (srv : server) (base_url : string)
    (tokens tok folder_id chunked : pyval) (file_path mime : string)
    (w : world) :
  py_getitem tokens "access_token" = Returns tok →
  fs w !! file_path = None →
  upload_move_it_file srv base_url tokens folder_id file_path mime chunked w
  = (Raises (FileNotFoundError file_path), w).
Proof.
  intros Htok Hb. unfold upload_move_it_file. run. rewrite Htok. simpl.
  by rewrite Hb.
Qed.

(** X9: a file under 40,000,000 bytes uploaded with a false [chunked], [None]
    and the default among its values, goes without a [Transfer-Encoding]
    header. *)
Theorem upload_small_not_chunked (srv : server) (base_url : string)
    (tokens tok folder_id chunked : pyval) (file_path mime : string)
    (b : list byte) (w : world) :
  py_getitem tokens "access_token" = Returns tok →
  fs w !! file_path = Some b →
  Z.of_nat (length b) < 40000000 →
  py_truthy chunked = false →
  ∃ r, sent (upload_move_it_file srv base_url tokens folder_id file_path
               mime chunked w).2 = sent w ++ [r]
     ∧ headers r !! "Transfer-Encoding" = None.
Proof.
  intros Htok Hb Hsz Hch.
  destruct (upload_sends srv base_url tokens tok folder_id chunked file_path
              mime b w Htok Hb) as (r & Hs & _ & _ & Ht & _).
  exists r. split; [done|]. rewrite Ht, Hch.
  by destruct (Z.leb_spec 40000000 (Z.of_nat (length b))); [lia|].
Qed.

(** X10: the request of an upload, whatever the answer to it: one [POST] to
    the folder's URL with the bearer token, [accept: application/json] and a
    bare [Content-Type: multipart/form-data], whose one form field [file]
    carries the bytes of the local file under its base name and the given
    type; the local files are as they were. *)
Theorem upload_request (srv : server) (base_url : string)
    (tokens tok folder_id chunked : pyval) (file_path mime : string)
    (b : list byte) (w : world) :
  py_getitem tokens "access_token" = Returns tok →
  fs w !! file_path = Some b →
  let r := upload_move_it_file srv base_url tokens folder_id file_path mime
             chunked w in
  fs r.2 = fs w
  ∧ ∃ q, sent r.2 = sent w ++ [q]
      ∧ meth q = POST
      ∧ url q = "https://moveit." +:+ base_url +:+ "/api/v1/folders/"
                +:+ py_str folder_id +:+ "/files"
      ∧ headers q !! "Authorization" = Some ("Bearer " +:+ py_str tok)
      ∧ headers q !! "accept" = Some "application/json"
      ∧ headers q !! "Content-Type" = Some "multipart/form-data"
      ∧ body q = MultipartFile "file" (os_path_basename file_path) b mime.
Proof.
  intros Htok Hb r. subst r. unfold upload_move_it_file. run.
  rewrite Htok. simpl. rewrite Hb. simpl. rewrite Hb. simpl.
  destruct (negb _); simpl; (split; [done|]); eexists;
    (split; [reflexivity|]); simpl;
    destruct (_ || _); by simplify_map_eq.
Qed.

(** ** Listings *)

Lemma available_files_loop_fs (srv : server) (url token : string)
    (fuel : nat) :
  ∀ (items : pyval) (page total_pages : Z) (w : world),
  fs (available_files_loop fuel srv url token items page total_pages w).2
  = fs w.
Proof.
  induction fuel as [|fuel IH]; intros items page total_pages w;
    destruct (decide (page = total_pages)) as [->|Hne];
    rewrite ?available_files_loop_done, ?available_files_loop_0 by done;
    try done.
  rewrite available_files_loop_step by done.
  destruct (next_file_page _ _) as [[[i p] t]|e|]; try done.
  by rewrite IH.
Qed.

Lemma available_folders_loop_fs (srv : server) (url token : string)
    (fuel : nat) :
  ∀ (items page total_pages : pyval) (w : world),
  fs (available_folders_loop fuel srv url token items page total_pages w).2
  = fs w.
Proof.
  induction fuel as [|fuel IH]; intros items page total_pages w;
    destruct (py_eq page total_pages) eqn:Hne;
    rewrite ?available_folders_loop_done, ?available_folders_loop_0 by done;
    try done.
  rewrite available_folders_loop_step by done.
  destruct (py_add1 page) as [next_page|e|]; try done. cbv zeta.
  destruct (next_folder_page _ _) as [[[i p] t]|e|]; try done.
  by rewrite IH.
Qed.

(** X11: the listers do nothing to the local files, however many pages they
    fetch and however they end. *)
Theorem listers_leave_files (fuel : nat) (srv : server) (base_url : string)
    (tokens : pyval) (w : world) :
  fs (available_files fuel srv base_url tokens w).2 = fs w
  ∧ fs (available_folders fuel srv base_url tokens w).2 = fs w.
Proof.
  destruct (py_getitem tokens "access_token") as [tok|e|] eqn:Htok.
  - rewrite (available_files_start fuel srv base_url tokens tok) by done.
    rewrite (available_folders_start fuel srv base_url tokens tok) by done.
    cbv zeta. destruct (first_page _) as [[[i p] t]|e|]; try done.
    by rewrite available_files_loop_fs, available_folders_loop_fs.
  - unfold available_files, available_folders. run. by rewrite Htok.
  - unfold available_files, available_folders. run. by rewrite Htok.
Qed.

(** X12: a first answer that is no page envelope ends a listing after its one
    request: a body that is not JSON in [JSONDecodeError], an object without
    [items] in [KeyError('items')], one with [items] and without [paging] in
    [KeyError('paging')]. *)
Theorem listers_first_answer_errors (fuel : nat) (srv : server)
    (base_url : string) (tokens tok : pyval) (w : world) :
  py_getitem tokens "access_token" = Returns tok →
  let r := srv (length (sent w)) in
  let ends (e : exn) :=
    let files := available_files fuel srv base_url tokens w in
    let folders := available_folders fuel srv base_url tokens w in
    files.1 = Raises e ∧ folders.1 = Raises e
    ∧ length (sent files.2) = S (length (sent w))
    ∧ length (sent folders.2) = S (length (sent w)) in
  (json r = None → ends JSONDecodeError)
  ∧ (∀ d, json r = Some (PDict d) → dict_get d "items" = None →
       ends (KeyError "items"))
  ∧ (∀ d, json r = Some (PDict d) → is_Some (dict_get d "items") →
       dict_get d "paging" = None → ends (KeyError "paging")).
Proof.
  intros Htok r ends. subst ends. cbv zeta.
  rewrite (available_files_start fuel srv base_url tokens tok) by done.
  rewrite (available_folders_start fuel srv base_url tokens tok) by done.
  cbv zeta. fold r. unfold first_page, response_json, after. simpl.
  split; [|split].
  - intros ->. simpl. rewrite !length_app. simpl. repeat split; lia.
  - intros d -> Hi. simpl. rewrite Hi. simpl. rewrite !length_app. simpl.
    repeat split; lia.
  - intros d -> [x Hi] Hp. simpl. rewrite Hi. simpl. unfold paging. simpl.
    rewrite Hp. simpl. rewrite !length_app. simpl. repeat split; lia.
Qed.

Section Requests.
Variables (srv : server) (url token : string).

Lemma page_requests_shift (p : Z) (n : nat) :
  (λ j : nat, page_request (url +:+ "?page=" +:+ pretty (p + 1 + 1 + Z.of_nat j))
                token) <$> seq 0 n
  = (λ j : nat, page_request (url +:+ "?page=" +:+ pretty (p + 1 + Z.of_nat j))
                  token) <$> seq 1 n.
Proof.
  rewrite <- fmap_S_seq, <- list_fmap_compose.
  apply list_fmap_ext. intros i j _. simpl.
  by replace (p + 1 + Z.of_nat (S j)) with (p + 1 + 1 + Z.of_nat j) by lia.
Qed.

(** The requests of the loops over the pages still to come: one for each,
    asking for the page after the one the last answer told. *)
Lemma available_files_loop_requests (rest : list (list pyval)) :
  ∀ (fuel : nat) (acc : list pyval) (p n : Z) (w : world),
  (∀ j its, rest !! j = Some its →
     is_page (srv (length (sent w) + j)%nat) its (p + 1 + Z.of_nat j) n) →
  p + Z.of_nat (length rest) = n →
  (length rest ≤ fuel)%nat →
  sent (available_files_loop fuel srv url token (PList acc) p n w).2
  = sent w ++ ((λ j : nat, page_request
                  (url +:+ "?page=" +:+ pretty (p + 1 + Z.of_nat j)) token)
               <$> seq 0 (length rest)).
Proof.
  induction rest as [|its rest IH]; intros fuel acc p n w Hsrv Hn Hfuel.
  - simpl in *. replace n with p by lia.
    by rewrite available_files_loop_done, app_nil_r.
  - simpl in Hn, Hfuel. destruct fuel as [|fuel]; [lia|].
    rewrite available_files_loop_step by lia.
    pose proof (Hsrv 0%nat its eq_refl) as H0.
    rewrite Nat.add_0_r, Z.add_0_r in H0.
    rewrite (next_file_page_is_page _ acc its _ _ H0). cbv zeta beta iota.
    rewrite (IH fuel (acc ++ its) (p + 1) n); [| |lia|lia].
    + unfold after. cbn [sent length seq fmap list_fmap].
      rewrite <- app_assoc. cbn [app]. rewrite Z.add_0_r.
      by rewrite page_requests_shift.
    + intros j its' Hj. unfold after. simpl. rewrite length_app. simpl.
      replace (length (sent w) + 1 + j)%nat with (length (sent w) + S j)%nat
        by lia.
      replace (p + 1 + 1 + Z.of_nat j) with (p + 1 + Z.of_nat (S j)) by lia.
      by apply Hsrv.
Qed.

Lemma available_folders_loop_requests (rest : list (list pyval)) :
  ∀ (fuel : nat) (acc : list pyval) (p n : Z) (w : world),
  (∀ j its, rest !! j = Some its →
     is_page (srv (length (sent w) + j)%nat) its (p + 1 + Z.of_nat j) n) →
  p + Z.of_nat (length rest) = n →
  (length rest ≤ fuel)%nat →
  sent (available_folders_loop fuel srv url token (PList acc) (PInt p)
          (PInt n) w).2
  = sent w ++ ((λ j : nat, page_request
                  (url +:+ "?page=" +:+ pretty (p + 1 + Z.of_nat j)) token)
               <$> seq 0 (length rest)).
Proof.
  induction rest as [|its rest IH]; intros fuel acc p n w Hsrv Hn Hfuel.
  - simpl in *. replace n with p by lia.
    rewrite available_folders_loop_done, app_nil_r; [done|].
    rewrite py_eq_int. apply Z.eqb_refl.
  - simpl in Hn, Hfuel. destruct fuel as [|fuel]; [lia|].
    rewrite available_folders_loop_step
      by (rewrite py_eq_int; apply Z.eqb_neq; lia).
    pose proof (Hsrv 0%nat its eq_refl) as H0.
    rewrite Nat.add_0_r, Z.add_0_r in H0. cbn [py_add1 py_str].
    rewrite (next_folder_page_is_page _ acc its _ _ H0). cbv zeta beta iota.
    rewrite (IH fuel (acc ++ its) (p + 1) n); [| |lia|lia].
    + unfold after. cbn [sent length seq fmap list_fmap].
      rewrite <- app_assoc. cbn [app]. rewrite Z.add_0_r.
      by rewrite page_requests_shift.
    + intros j its' Hj. unfold after. simpl. rewrite length_app. simpl.
      replace (length (sent w) + 1 + j)%nat with (length (sent w) + S j)%nat
        by lia.
      replace (p + 1 + 1 + Z.of_nat j) with (p + 1 + Z.of_nat (S j)) by lia.
      by apply Hsrv.
Qed.

End Requests.

(** X13: when the service gives pages 1 to [n] of [n] in order, a lister
    sends [n] requests, one a page: the listing URL as it is for the first,
    then the URL with [?page=2] up to [?page=n], each with the bearer token
    as its only header. *)
Theorem listers_requests (fuel : nat) (srv : server) (base_url : string)
    (tokens tok : pyval) (pages : list (list pyval)) (w : world) :
  py_getitem tokens "access_token" = Returns tok →
  pages ≠ [] →
  (∀ k its, pages !! k = Some its →
     is_page (srv (length (sent w) + k)%nat) its
       (Z.of_nat k + 1) (Z.of_nat (length pages))) →
  (length pages ≤ S fuel)%nat →
  let token := "Bearer " +:+ py_str tok in
  sent (available_files fuel srv base_url tokens w).2
    = sent w ++ page_requests
                  ("https://moveit." +:+ base_url +:+ "/api/v1/files") token
                  (length pages)
  ∧ sent (available_folders fuel srv base_url tokens w).2
    = sent w ++ page_requests
                  ("https://moveit." +:+ base_url +:+ "/api/v1/folders")
                  token (length pages).
Proof.
  intros Htok Hne Hsrv Hfuel token.
  destruct pages as [|its rest]; [done|]. simpl in Hfuel.
  pose proof (Hsrv 0%nat its eq_refl) as H0.
  rewrite Nat.add_0_r in H0. simpl in H0.
  rewrite (available_files_start fuel srv base_url tokens tok) by done.
  rewrite (available_folders_start fuel srv base_url tokens tok) by done.
  cbv zeta. rewrite (first_page_is_page _ _ _ _ H0). cbv beta iota.
  assert (Hrest : ∀ r j its',
    rest !! j = Some its' →
    is_page (srv (length (sent (after w r)) + j)%nat) its'
      (1 + 1 + Z.of_nat j) (Z.pos (Pos.of_succ_nat (length rest)))).
  { intros r j its' Hj. unfold after. simpl. rewrite length_app. simpl.
    replace (length (sent w) + 1 + j)%nat with (length (sent w) + S j)%nat
      by lia.
    replace (1 + 1 + Z.of_nat j) with (Z.of_nat (S j) + 1) by lia.
    by apply (Hsrv (S j)). }
  assert (Hurls : ∀ u,
    ((λ j : nat, page_request (u +:+ "?page=" +:+ pretty (1 + 1 + Z.of_nat j))
                   token) <$> seq 0 (length rest))
    = ((λ k : nat, page_request (u +:+ "?page=" +:+ pretty (Z.of_nat k + 2))
                     token) <$> seq 0 (length rest))).
  { intros u. apply list_fmap_ext. intros i j _. simpl.
    by replace (1 + 1 + Z.of_nat j) with (Z.of_nat j + 2) by lia. }
  unfold page_requests. cbn [length]. rewrite Nat.sub_succ, Nat.sub_0_r.
  split.
  - rewrite (available_files_loop_requests srv _ _ rest);
      [|apply Hrest|lia|lia].
    unfold after. cbn [sent]. rewrite <- app_assoc. cbn [app].
    by rewrite Hurls.
  - rewrite (available_folders_loop_requests srv _ _ rest);
      [|apply Hrest|lia|lia].
    unfold after. cbn [sent]. rewrite <- app_assoc. cbn [app].
    by rewrite Hurls.
Qed.

(** ** Listings that do not end, and paging fields that are not integers *)

Lemma available_loops_never_last (srv : server) (url url' token : string)
    (fuel : nat) :
  never_last srv →
  ∀ (acc : list pyval) (p t : Z) (w w' : world),
  p ≠ t →
  length (sent w') = length (sent w) →
  let files := available_files_loop fuel srv url token (PList acc) p t w in
  let folders :=
    available_folders_loop fuel srv url' token (PList acc) (PInt p) (PInt t)
      w' in
  files.1 = OutOfFuel ∧ folders.1 = OutOfFuel
  ∧ length (sent files.2) = (length (sent w) + fuel)%nat
  ∧ length (sent folders.2) = (length (sent w) + fuel)%nat.
Proof.
  intros Hsrv.
  induction fuel as [|fuel IH]; intros acc p t w w' Hne Hw; cbv zeta.
  - rewrite available_files_loop_0, available_folders_loop_0;
      [|by rewrite py_eq_int; apply Z.eqb_neq|done].
    simpl. repeat split; lia.
  - rewrite available_files_loop_step by done.
    rewrite available_folders_loop_step
      by (rewrite py_eq_int; by apply Z.eqb_neq).
    cbn [py_add1]. cbv zeta. rewrite Hw.
    destruct (Hsrv (length (sent w))) as (its & p' & t' & Hpage & Hne').
    rewrite (next_file_page_is_page _ acc _ _ _ Hpage).
    rewrite (next_folder_page_is_page _ acc _ _ _ Hpage). cbv beta iota.
    destruct (IH (acc ++ its) p' t'
                (after w (page_request (url +:+ "?page=" +:+ pretty (p + 1))
                            token))
                (after w' (page_request
                             (url' +:+ "?page=" +:+ py_str (PInt (p + 1)))
                             token)))
      as (Hf & Hd & Hsf & Hsd); [done| |].
    { unfold after. simpl. rewrite !length_app. simpl. lia. }
    rewrite Hf, Hd, Hsf, Hsd. unfold after. simpl. rewrite length_app. simpl.
    repeat split; lia.
Qed.

(** X14: nothing bounds the loops but the answers: against a service none of
    whose answers has [page] equal to [totalPages], whether it stands still
    or goes back and forth, neither lister returns on any amount of fuel,
    and each turn sends one more request. *)
Theorem listers_diverge (fuel : nat) (srv : server) (base_url : string)
    (tokens tok : pyval) (w : world) :
  py_getitem tokens "access_token" = Returns tok →
  never_last srv →
  let files := available_files fuel srv base_url tokens w in
  let folders := available_folders fuel srv base_url tokens w in
  files.1 = OutOfFuel ∧ folders.1 = OutOfFuel
  ∧ length (sent files.2) = (length (sent w) + S fuel)%nat
  ∧ length (sent folders.2) = (length (sent w) + S fuel)%nat.
Proof.
  intros Htok Hsrv files folders. subst files folders.
  rewrite (available_files_start fuel srv base_url tokens tok) by done.
  rewrite (available_folders_start fuel srv base_url tokens tok) by done.
  cbv zeta.
  destruct (Hsrv (length (sent w))) as (its & p & t & Hpage & Hne).
  rewrite (first_page_is_page _ _ _ _ Hpage). cbv beta iota.
  edestruct (available_loops_never_last srv) as (Hf & Hd & Hsf & Hsd);
    [exact Hsrv|exact Hne| |rewrite Hf, Hd, Hsf, Hsd].
  - unfold after. simpl. by rewrite !length_app.
  - unfold after. simpl. rewrite length_app. simpl. repeat split; lia.
Qed.

(** X15: the folder lister keeps the paging fields of a later answer as they
    come.  When the second answer tells [page] and [totalPages] as strs, two
    that differ stop the listing in [TypeError] at [page + 1], after two
    requests, and two that are equal end it with the items of both pages. *)
Theorem available_folders_str_paging (fuel : nat) (srv : server)
    (base_url : string) (tokens tok v : pyval) (its0 its1 : list pyval)
    (p0 t0 : Z) (s t : string) (w : world) :
  py_getitem tokens "access_token" = Returns tok →
  is_page (srv (length (sent w))) its0 p0 t0 →
  p0 ≠ t0 →
  json (srv (S (length (sent w)))) = Some v →
  py_getitem v "items" = Returns (PList its1) →
  paging v "page" = Returns (PStr s) →
  paging v "totalPages" = Returns (PStr t) →
  let r := available_folders (S (S fuel)) srv base_url tokens w in
  (s ≠ t → r.1 = Raises TypeError
           ∧ length (sent r.2) = (length (sent w) + 2)%nat)
  ∧ (s = t → r.1 = Returns (PList (its0 ++ its1))).
Proof.
  intros Htok H0 Hne Hj Hi Hp Ht r. subst r.
  rewrite (available_folders_start _ srv base_url tokens tok) by done.
  cbv zeta. rewrite (first_page_is_page _ _ _ _ H0). cbv beta iota.
  rewrite available_folders_loop_step
    by (rewrite py_eq_int; by apply Z.eqb_neq).
  cbn [py_add1]. cbv zeta.
  assert (Hnext : next_folder_page (PList its0)
                    (srv (length (sent (after w (page_request
                       ("https://moveit." +:+ base_url +:+ "/api/v1/folders")
                       ("Bearer " +:+ py_str tok))))))
                  = Returns (PList (its0 ++ its1), PStr s, PStr t)).
  { unfold after. cbn [sent]. rewrite length_app, Nat.add_1_r.
    unfold next_folder_page. rewrite (response_json_some _ v Hj).
    cbn [and_then]. rewrite (extend_items_is_page its0 its1 v Hi).
    cbn [and_then]. rewrite Hp. cbn [and_then]. by rewrite Ht. }
  rewrite Hnext. cbv beta iota. split.
  - intros Hst. rewrite available_folders_loop_step
      by (simpl; by apply String.eqb_neq).
    simpl. rewrite !length_app. simpl. split; [done|lia].
  - intros ->. rewrite available_folders_loop_done; [done|].
    simpl. apply String.eqb_refl.
Qed.

Lemma first_page_reads_as_page (r : response) (its : list pyval) (p t : Z) :
  reads_as_page r its p t → first_page r = Returns (PList its, p, t).
Proof.
  intros (v & x & y & Hj & Hi & Hp & Hx & Ht & Hy). unfold first_page.
  rewrite (response_json_some r v Hj). cbn [and_then].
  rewrite Hi. cbn [and_then]. rewrite Hp. cbn [and_then]. rewrite Hx.
  cbn [and_then]. rewrite Ht. cbn [and_then]. by rewrite Hy.
Qed.

Lemma next_file_page_reads_as_page (r : response) (acc its : list pyval)
    (p t : Z) :
  reads_as_page r its p t →
  next_file_page (PList acc) r = Returns (PList (acc ++ its), p, t).
Proof.
  intros (v & x & y & Hj & Hi & Hp & Hx & Ht & Hy). unfold next_file_page.
  rewrite (response_json_some r v Hj). cbn [and_then].
  rewrite (extend_items_is_page acc its v Hi). cbn [and_then].
  rewrite Hp. cbn [and_then]. rewrite Hx. cbn [and_then].
  rewrite Ht. cbn [and_then]. by rewrite Hy.
Qed.

Lemma available_files_loop_reads (srv : server) (url token : string)
    (rest : list (list pyval)) :
  ∀ (fuel : nat) (acc : list pyval) (p n : Z) (w : world),
  (∀ j its, rest !! j = Some its →
     reads_as_page (srv (length (sent w) + j)%nat) its
       (p + 1 + Z.of_nat j) n) →
  p + Z.of_nat (length rest) = n →
  (length rest ≤ fuel)%nat →
  (available_files_loop fuel srv url token (PList acc) p n w).1
  = Returns (PList (acc ++ concat rest)).
Proof.
  induction rest as [|its rest IH]; intros fuel acc p n w Hsrv Hn Hfuel.
  - simpl in *. replace n with p by lia.
    by rewrite available_files_loop_done, app_nil_r.
  - simpl in Hn, Hfuel. destruct fuel as [|fuel]; [lia|].
    rewrite available_files_loop_step by lia.
    pose proof (Hsrv 0%nat its eq_refl) as H0.
    rewrite Nat.add_0_r, Z.add_0_r in H0.
    rewrite (next_file_page_reads_as_page _ acc its _ _ H0). simpl.
    rewrite app_assoc. apply IH; [|lia|lia].
    intros j its' Hj. unfold after. simpl. rewrite length_app. simpl.
    replace (length (sent w) + 1 + j)%nat with (length (sent w) + S j)%nat
      by lia.
    replace (p + 1 + 1 + Z.of_nat j) with (p + 1 + Z.of_nat (S j)) by lia.
    by apply Hsrv.
Qed.

(** X16: the file lister puts every paging field through [int], so page
    numbers told as strs, or as anything else [int] reads, serve as well as
    integers: pages that read as 1 to [n] of [n] come back concatenated in
    page order. *)
Theorem available_files_coerces_paging (fuel : nat) (srv : server)
    (base_url : string) (tokens tok : pyval) (pages : list (list pyval))
    (w : world) :
  py_getitem tokens "access_token" = Returns tok →
  pages ≠ [] →
  (∀ k its, pages !! k = Some its →
     reads_as_page (srv (length (sent w) + k)%nat) its
       (Z.of_nat k + 1) (Z.of_nat (length pages))) →
  (length pages ≤ S fuel)%nat →
  (available_files fuel srv base_url tokens w).1
  = Returns (PList (concat pages)).
Proof.
  intros Htok Hne Hsrv Hfuel.
  destruct pages as [|its rest]; [done|]. simpl in Hfuel.
  pose proof (Hsrv 0%nat its eq_refl) as H0.
  rewrite Nat.add_0_r in H0.
  rewrite (available_files_start fuel srv base_url tokens tok) by done.
  cbv zeta. rewrite (first_page_reads_as_page _ _ _ _ H0). cbv beta iota.
  apply available_files_loop_reads; [|simpl; lia|lia].
  intros j its' Hj. unfold after. cbn [sent]. rewrite length_app.
  cbn [length].
  replace (length (sent w) + 1 + j)%nat with (length (sent w) + S j)%nat
    by lia.
  replace (Z.of_nat 0 + 1 + 1 + Z.of_nat j) with (Z.of_nat (S j) + 1) by lia.
  exact (Hsrv (S j) its' Hj).
Qed.

End Further.

(** * The model at work

    The theorems above, applied to concrete calls, and the calls on which
    the code does not do what was expected of it. *)

(** The three pages of two items: [A] to [F], in that order. *)
Lemma listers_concatenate_pages_witness :
  (available_files 2 three_pages "example.org" tokens_T nothing).1
    = Returns (PList [PStr "A"; PStr "B"; PStr "C"; PStr "D"; PStr "E";
                      PStr "F"])
  ∧ (available_folders 2 three_pages "example.org" tokens_T nothing).1
    = Returns (PList [PStr "A"; PStr "B"; PStr "C"; PStr "D"; PStr "E";
                      PStr "F"]).
Proof.
  apply (listers_concatenate_pages 2 three_pages "example.org" tokens_T
           (PStr "T")
           [[PStr "A"; PStr "B"]; [PStr "C"; PStr "D"]; [PStr "E"; PStr "F"]]
           nothing).
  - reflexivity.
  - discriminate.
  - intros [|[|[|k]]] its Hk; simpl in Hk; try discriminate;
      injection Hk as <-; eexists; repeat split; reflexivity.
  - simpl. lia.
Defined.

(** A 401 to the authentication. *)
Lemma auth_move_it_result_witness :
  ∃ kind, (kind = " Client Error: " ∨ kind = " Server Error: ")
    ∧ (auth_move_it (always unauthorized) "example.org" credentials nothing).1
      = Returns (PStr ("Error: " +:+ pretty 401 +:+ kind +:+ "Unauthorized"
                       +:+ " for url: "
                       +:+ "https://moveit.example.org/api/v1/token")).
Proof.
  apply (proj1 (auth_move_it_result (always unauthorized) "example.org"
                  credentials nothing)).
  simpl. lia.
Defined.

(** The spec's 401: the str that comes back. *)
Example auth_move_it_401 :
  (auth_move_it (always unauthorized) "example.org" credentials nothing).1
  = Returns (PStr "Error: 401 Client Error: Unauthorized for url: https://moveit.example.org/api/v1/token").
Proof. reflexivity. Qed.

(** C2 as it was stated fails at status 304, which is not 2xx: with no JSON
    in the body the call raises, and with JSON in the body it returns that
    JSON, not an error str. *)
Lemma auth_move_it_not_modified :
  ¬ 200 ≤ status_code not_modified < 300
  ∧ (auth_move_it (always not_modified) "example.org" credentials nothing).1
    = Raises JSONDecodeError
  ∧ ¬ 200 ≤ status_code not_modified_json < 300
  ∧ (auth_move_it (always not_modified_json) "example.org" credentials
       nothing).1 = Returns (PDict []).
Proof. simpl. repeat split; lia || reflexivity. Qed.

(** The three pages again: two turns of fuel are enough. *)
Lemma pagination_termination_witness :
  ∃ v, ∀ fuel, (2 ≤ fuel)%nat →
    (available_files fuel three_pages "example.org" tokens_T nothing).1
      = Returns (PList v)
    ∧ (available_folders fuel three_pages "example.org" tokens_T nothing).1
      = Returns (PList v).
Proof.
  apply (proj1 pagination_termination three_pages "example.org" tokens_T
           (PStr "T") nothing 2%nat
           (λ k, match k with
                 | O => [PStr "A"; PStr "B"]
                 | 1%nat => [PStr "C"; PStr "D"]
                 | _ => [PStr "E"; PStr "F"]
                 end)
           (λ _, 3) 1).
  - reflexivity.
  - intros [|[|[|k]]] Hk; try lia; eexists; repeat split; reflexivity.
  - reflexivity.
Defined.

(** A small file uploaded with [chunked=True]. *)
Lemma upload_chunked_header_witness :
  ∃ r, sent (upload_move_it_file (always not_found) "example.org" tokens_T
               (PInt 12) "/data/report.csv" "text/csv" (PBool true)
               with_report).2 = sent with_report ++ [r]
     ∧ headers r !! "Transfer-Encoding" = Some "chunked".
Proof.
  apply (upload_chunked_header (always not_found) "example.org" tokens_T
           (PStr "T") (PInt 12) (PBool true) "/data/report.csv" "text/csv"
           csv_body with_report).
  - reflexivity.
  - reflexivity.
  - right. reflexivity.
Defined.

(** The spec's 404 to an upload. *)
Lemma upload_status_witness :
  (upload_move_it_file (always not_found) "example.org" tokens_T (PInt 12)
     "/data/report.csv" "text/csv" PNone with_report).1
  = Raises (Exception [PInt 404]).
Proof.
  apply (upload_status (always not_found) "example.org" tokens_T (PStr "T")
           (PInt 12) PNone "/data/report.csv" "text/csv" csv_body
           with_report).
  - reflexivity.
  - reflexivity.
Defined.

(** A download with [file_type="json"]. *)
Lemma read_move_it_file_other_type_witness :
  let r := read_move_it_file (always csv_file) "example.org" tokens_T
             (PInt 7) (PStr "json") PNone nothing in
  r.1 = Raises (UnboundLocalError "data")
  ∧ (∀ d, r.1 ≠ Returns d)
  ∧ length (sent r.2) = S (length (sent nothing))
  ∧ fs r.2 = fs nothing.
Proof.
  apply (read_move_it_file_other_type (always csv_file) "example.org"
           tokens_T (PStr "T") (PInt 7) (PStr "json") PNone nothing);
    reflexivity.
Defined.

(** The download of a [json] file: the call does not fall through in
    silence, it raises. *)
Lemma read_move_it_file_json_raises :
  (read_move_it_file (always csv_file) "example.org" tokens_T (PInt 7)
     (PStr "json") PNone nothing).1
  = Raises (UnboundLocalError "data").
Proof. vm_compute. reflexivity. Qed.

(** The token mapping of the spec, [access_token] bound to [T]. *)
Lemma requests_carry_bearer_witness :
  ∃ rs, issued nothing
          (available_files 2 three_pages "example.org" tokens_T nothing).2 rs
        ∧ Forall (has_bearer "T") rs ∧ (1 ≤ length rs)%nat.
Proof.
  exact (proj1 (requests_carry_bearer 2 three_pages "example.org" tokens_T
                  (PInt 7) (PStr "csv") PNone (PInt 12) PNone "T"
                  "/data/report.csv" "text/csv" nothing eq_refl)).
Defined.

(** The two listers on the three pages. *)
Lemma listers_agree_on_int_paging_witness :
  (available_folders 2 three_pages "example.org" tokens_T nothing).1
    = (available_files 2 three_pages "example.org" tokens_T nothing).1
  ∧ length (sent (available_folders 2 three_pages "example.org" tokens_T
                    nothing).2)
    = length (sent (available_files 2 three_pages "example.org" tokens_T
                      nothing).2).
Proof.
  apply (listers_agree_on_int_paging 2 three_pages "example.org" tokens_T
           nothing).
  intros [|[|k]]; eexists _, _, _; repeat split; reflexivity.
Defined.

(** Where the paging fields are strs the two listers part ways: the file
    lister reads ["2"] of ["3"] as a page to go on from, the folder lister
    stops in [TypeError] at [page + 1]. *)
Example listers_part_on_str_paging :
  (available_files 2 str_paged "example.org" tokens_T nothing).1
    = Returns (PList [])
  ∧ (available_folders 2 str_paged "example.org" tokens_T nothing).1
    = Raises TypeError.
Proof. split; vm_compute; reflexivity. Qed.

(** The spec's CSV file, downloaded and read. *)
Lemma read_move_it_file_removes_tmp_witness :
  let r := read_move_it_file (always csv_file) "example.org" tokens_T
             (PInt 7) (PStr "csv") PNone nothing in
  r.1 = Returns csv_table
  ∧ (mkstemp (dom (fs nothing)) ∉ dom (fs r.2))
  ∧ fs r.2 = fs nothing.
Proof.
  intros r. split; [vm_compute; reflexivity|].
  apply (read_move_it_file_removes_tmp (always csv_file) "example.org"
           tokens_T (PInt 7) (PStr "csv") PNone nothing r.2 csv_table).
  vm_compute. reflexivity.
Defined.

(** A token mapping that only has [token_type]. *)
Lemma missing_access_token_witness :
  (read_move_it_file (always csv_file) "example.org" (PDict tokens_without)
     (PInt 7) (PStr "csv") PNone nothing).1
    = Raises (KeyError "access_token")
  ∧ sent (read_move_it_file (always csv_file) "example.org"
            (PDict tokens_without) (PInt 7) (PStr "csv") PNone nothing).2
    = sent nothing.
Proof.
  exact (proj1 (missing_access_token 0 (always csv_file) "example.org"
                  tokens_without (PInt 7) (PStr "csv") PNone (PInt 12) PNone
                  "/data/report.csv" "text/csv" nothing eq_refl)).
Defined.

(** ** The further properties at work *)

(** A 401, and its error str handed to the file lister. *)
Lemma auth_error_as_tokens_witness :
  ∃ tokens,
    (auth_move_it (always unauthorized) "example.org" credentials nothing).1
      = Returns tokens
    ∧ (available_files 0 (always unauthorized) "example.org" tokens
         (auth_move_it (always unauthorized) "example.org" credentials
            nothing).2).1 = Raises TypeError.
Proof.
  destruct (auth_error_as_tokens 0 (always unauthorized) "example.org"
              credentials (PInt 7) (PStr "csv") PNone (PInt 12) PNone
              "/data/report.csv" "text/csv" nothing ltac:(simpl; lia))
    as (tokens & Ha & _ & [Hf _] & _).
  exists tokens. split; [exact Ha | exact Hf].
Defined.

(** A download with a token mapping that only has [token_type]. *)
Lemma read_move_it_file_token_failure_witness :
  fs nothing !! mkstemp (dom (fs nothing)) = None
  ∧ read_move_it_file (always csv_file) "example.org" (PDict tokens_without)
      (PInt 7) (PStr "csv") PNone nothing
    = (Raises (KeyError "access_token"),
       World (sent nothing) (<[mkstemp (dom (fs nothing)) := []]> (fs nothing))).
Proof.
  exact (read_move_it_file_token_failure (always csv_file) "example.org"
           (PDict tokens_without) (PInt 7) (PStr "csv") PNone nothing
           (KeyError "access_token") eq_refl).
Defined.

(** A download of an empty file, which the reader refuses. *)
Lemma read_move_it_file_parser_failure_witness :
  fs nothing !! mkstemp (dom (fs nothing)) = None
  ∧ fs (read_move_it_file (always empty_file) "example.org" tokens_T (PInt 7)
          (PStr "csv") PNone nothing).2
    = <[mkstemp (dom (fs nothing)) := []]> (fs nothing).
Proof.
  apply (read_move_it_file_parser_failure (always empty_file) "example.org"
           tokens_T (PStr "T") (PInt 7) (PStr "csv") PNone nothing).
  - reflexivity.
  - vm_compute. reflexivity.
Defined.

(** The request of the download of file 7. *)
Lemma read_move_it_file_request_witness :
  sent (read_move_it_file (always csv_file) "example.org" tokens_T (PInt 7)
          (PStr "excel") PNone nothing).2
  = [Request GET "https://moveit.example.org/api/v1/files/7/download"
       {["Authorization" := "Bearer T"]} true NoBody].
Proof.
  exact (read_move_it_file_request (always csv_file) "example.org" tokens_T
           (PStr "T") (PInt 7) (PStr "excel") PNone nothing eq_refl).
Defined.

(** The spec's CSV file: two columns, one row under the header. *)
Lemma read_move_it_file_reads_body_witness :
  (read_move_it_file (always csv_file) "example.org" tokens_T (PInt 7)
     (PStr "csv") PNone nothing).1
  = Returns csv_table.
Proof.
  exact (proj1 (read_move_it_file_reads_body (always csv_file) "example.org"
                  tokens_T (PStr "T") (PInt 7) PNone nothing eq_refl)).
Defined.

(** An upload from a machine without the file. *)
Lemma upload_missing_file_witness :
  upload_move_it_file (always not_found) "example.org" tokens_T (PInt 12)
    "/data/report.csv" "text/csv" PNone nothing
  = (Raises (FileNotFoundError "/data/report.csv"), nothing).
Proof.
  exact (upload_missing_file (always not_found) "example.org" tokens_T
           (PStr "T") (PInt 12) PNone "/data/report.csv" "text/csv" nothing
           eq_refl eq_refl).
Defined.

(** Eight bytes uploaded with [chunked=None]. *)
Lemma upload_small_not_chunked_witness :
  ∃ r, sent (upload_move_it_file (always not_found) "example.org" tokens_T
               (PInt 12) "/data/report.csv" "text/csv" PNone
               with_report).2 = sent with_report ++ [r]
     ∧ headers r !! "Transfer-Encoding" = None.
Proof.
  apply (upload_small_not_chunked (always not_found) "example.org" tokens_T
           (PStr "T") (PInt 12) PNone "/data/report.csv" "text/csv" csv_body
           with_report).
  - reflexivity.
  - reflexivity.
  - simpl. lia.
  - reflexivity.
Defined.

(** The request of that upload. *)
Lemma upload_request_witness :
  fs (upload_move_it_file (always not_found) "example.org" tokens_T (PInt 12)
        "/data/report.csv" "text/csv" PNone with_report).2 = fs with_report
  ∧ ∃ q, sent (upload_move_it_file (always not_found) "example.org" tokens_T
                 (PInt 12) "/data/report.csv" "text/csv" PNone
                 with_report).2 = sent with_report ++ [q]
      ∧ meth q = POST
      ∧ url q = "https://moveit.example.org/api/v1/folders/12/files"
      ∧ headers q !! "Authorization" = Some "Bearer T"
      ∧ headers q !! "accept" = Some "application/json"
      ∧ headers q !! "Content-Type" = Some "multipart/form-data"
      ∧ body q = MultipartFile "file" "report.csv" csv_body "text/csv".
Proof.
  exact (upload_request (always not_found) "example.org" tokens_T (PStr "T")
           (PInt 12) PNone "/data/report.csv" "text/csv" csv_body with_report
           eq_refl eq_refl).
Defined.

(** A first answer without [items]. *)
Lemma listers_first_answer_errors_witness :
  (available_files 0 (always no_items) "example.org" tokens_T nothing).1
    = Raises (KeyError "items")
  ∧ (available_folders 0 (always no_items) "example.org" tokens_T nothing).1
    = Raises (KeyError "items").
Proof.
  destruct (listers_first_answer_errors 0 (always no_items) "example.org"
              tokens_T (PStr "T") nothing eq_refl) as (_ & Hitems & _).
  destruct (Hitems _ eq_refl eq_refl) as (Hf & Hd & _).
  split; [exact Hf | exact Hd].
Defined.

(** The requests for the three pages. *)
Lemma listers_requests_witness :
  sent (available_files 2 three_pages "example.org" tokens_T nothing).2
    = page_requests "https://moveit.example.org/api/v1/files" "Bearer T" 3
  ∧ sent (available_folders 2 three_pages "example.org" tokens_T nothing).2
    = page_requests "https://moveit.example.org/api/v1/folders" "Bearer T" 3.
Proof.
  apply (listers_requests 2 three_pages "example.org" tokens_T (PStr "T")
           [[PStr "A"; PStr "B"]; [PStr "C"; PStr "D"]; [PStr "E"; PStr "F"]]
           nothing).
  - reflexivity.
  - discriminate.
  - intros [|[|[|k]]] its Hk; simpl in Hk; try discriminate;
      injection Hk as <-; eexists; repeat split; reflexivity.
  - simpl. lia.
Defined.

(** Five turns against the service that goes back and forth. *)
Lemma listers_diverge_witness :
  (available_files 5 oscillating "example.org" tokens_T nothing).1 = OutOfFuel
  ∧ (available_folders 5 oscillating "example.org" tokens_T nothing).1
    = OutOfFuel
  ∧ length (sent (available_files 5 oscillating "example.org" tokens_T
                    nothing).2) = 6%nat
  ∧ length (sent (available_folders 5 oscillating "example.org" tokens_T
                    nothing).2) = 6%nat.
Proof.
  apply (listers_diverge 5 oscillating "example.org" tokens_T (PStr "T")
           nothing).
  - reflexivity.
  - intros k. unfold oscillating.
    destruct (Nat.even k); eexists _, _, _;
      (split; [eexists; split; [reflexivity|];
               split; [reflexivity|]; split; reflexivity | lia]).
Defined.

(** Page 1 of 3, then ["2"] of ["3"]. *)
Lemma available_folders_str_paging_witness :
  (available_folders 2 str_paged "example.org" tokens_T nothing).1
    = Raises TypeError
  ∧ length (sent (available_folders 2 str_paged "example.org" tokens_T
                    nothing).2) = 2%nat.
Proof.
  apply (available_folders_str_paging 0 str_paged "example.org" tokens_T
           (PStr "T")
           (PDict [("items", PList []);
                   ("paging", PDict [("page", PStr "2");
                                     ("totalPages", PStr "3")])])
           [] [] 1 3 "2" "3" nothing).
  - reflexivity.
  - eexists. repeat split; reflexivity.
  - lia.
  - reflexivity.
  - reflexivity.
  - reflexivity.
  - reflexivity.
  - discriminate.
Defined.

(** Three pages numbered in strs, listed as files. *)
Lemma available_files_coerces_paging_witness :
  (available_files 2 str_pages "example.org" tokens_T nothing).1
  = Returns (PList [PStr "A"; PStr "B"; PStr "C"; PStr "D"; PStr "E";
                    PStr "F"]).
Proof.
  apply (available_files_coerces_paging 2 str_pages "example.org" tokens_T
           (PStr "T")
           [[PStr "A"; PStr "B"]; [PStr "C"; PStr "D"]; [PStr "E"; PStr "F"]]
           nothing).
  - reflexivity.
  - discriminate.
  - intros [|[|[|k]]] its Hk; simpl in Hk; try discriminate;
      injection Hk as <-; eexists _, _, _; repeat split; reflexivity.
  - simpl. lia.
Defined.
